(** * dns-delay-server: the query handler of [main.go]

    A shallow embedding of [newDNSHandler] and a verification of its
    reply-construction behaviour: CNAME synthesis, answer-set selection,
    answer building, alternation over the process-wide [choiceMap], the NS
    authority record and the non-query short cut.

    The handler is effectful (it mutates [choiceMap], sleeps, logs and writes
    the reply to the transport) and it can panic on an out-of-range index, so
    it is modelled in a small state-and-panic monad [Run] over a [World]. *)

From Stdlib Require Import ZArith String Ascii Lia.
From stdpp Require Import gmap strings list.

Local Open Scope string_scope.
Local Open Scope Z_scope.
Local Open Scope list_scope.

(** ** Go strings: [strings.HasPrefix] and [strings.TrimPrefix] *)

Fixpoint HasPrefix (s prefix : string) : bool :=
  match prefix, s with
  | EmptyString, _ => true
  | String _ _, EmptyString => false
  | String c prefix', String d s' =>
      if Ascii.eqb c d then HasPrefix s' prefix' else false
  end.

(** [s[n:]] for [n <= len(s)]. *)
Fixpoint sliceFrom (n : nat) (s : string) : string :=
  match n, s with
  | O, _ => s
  | S n', String _ s' => sliceFrom n' s'
  | S _, EmptyString => EmptyString
  end.

Definition TrimPrefix (s prefix : string) : string :=
  if HasPrefix s prefix then sliceFrom (String.length prefix) s else s.

(** ** Data of the handler *)

(** [type Records struct] of main.go. *)
Record Records := mkRecords {
  A : list string;
  AAAA : list string;
  CNAMEA : list string;
  CNAMEAAAA : list string
}.

(** One entry of [Msg.Question]. *)
Record dnsQuestion := mkQuestion {
  Name : string;
  Qtype : Z;
  Qclass : Z
}.

Definition TypeA : Z := 1.
Definition TypeAAAA : Z := 28.
Definition OpcodeQuery : Z := 0.

(** The two parsers the handler calls in its libraries, taken as an
    interface: [net.ParseIP] is used only through its nil test
    ([ParseIP ip = false] is a nil result), and [dns.NewRR] through its
    error test ([NewRR s = Some rr] is [err == nil] with record [rr]). [RR]
    is the library's resource-record interface type. *)
Class Library := {
  RR : Type;
  ParseIP : string -> bool;
  NewRR : string -> option RR
}.

(** Go's [int] on a 64-bit platform: the increment of a counter wraps. *)
Definition wrapInt (x : Z) : Z := (x + 2 ^ 63) mod 2 ^ 64 - 2 ^ 63.

(** A run of the handler ends normally or in a Go panic. *)
Inductive PanicReason :=
| IndexOutOfRange (index len : Z).

Inductive Outcome (T : Type) :=
| Done (x : T)
| Panicked (p : PanicReason).
Arguments Done {T} x.
Arguments Panicked {T} p.

(** ** A small instance of the library interface

    Used to run the handler on concrete requests. It covers the fragment the
    examples stay in: an address is an IPv4 dotted-quad literal, and a record
    text has three space-separated fields [owner TYPE rdata] with [TYPE] one
    of A (whose rdata must be an IPv4 literal), CNAME and NS. Every other
    text is rejected. *)
Module Ref.

Record rr := mkRR {
  owner : string;
  rrtype : string;
  rdata : string
}.

Fixpoint splitOn (sep : ascii) (s : string) : list string :=
  match s with
  | EmptyString => [EmptyString]
  | String c s' =>
      if Ascii.eqb c sep then EmptyString :: splitOn sep s'
      else match splitOn sep s' with
           | f :: fs => String c f :: fs
           | [] => [String c EmptyString]
           end
  end.

Definition isDigit (c : ascii) : bool :=
  (48 <=? Z.of_nat (nat_of_ascii c)) && (Z.of_nat (nat_of_ascii c) <=? 57).

Fixpoint decimal (acc : Z) (s : string) : option Z :=
  match s with
  | EmptyString => Some acc
  | String c s' =>
      if isDigit c then decimal (10 * acc + (Z.of_nat (nat_of_ascii c) - 48)) s'
      else None
  end.

(** One field of a dotted quad: one to three digits, no leading zero, at
    most 255. *)
Definition octet (s : string) : bool :=
  match s with
  | EmptyString => false
  | String c s' =>
      (Z.of_nat (String.length s) <=? 3) &&
      (negb (Ascii.eqb c "0") || (String.length s' =? 0)%nat) &&
      match decimal 0 s with
      | Some v => v <=? 255
      | None => false
      end
  end.

Definition parseIPv4 (s : string) : bool :=
  match splitOn "." s with
  | [a; b; c; d] => octet a && octet b && octet c && octet d
  | _ => false
  end.

Definition newRR (s : string) : option rr :=
  match splitOn " " s with
  | [o; t; d] =>
      if (0 <? Z.of_nat (String.length o)) && (0 <? Z.of_nat (String.length d)) then
        if String.eqb t "A" then
          (if parseIPv4 d then Some (mkRR o t d) else None)
        else if String.eqb t "CNAME" || String.eqb t "NS" then Some (mkRR o t d)
        else None
      else None
  | _ => None
  end.

#[export] Instance lib : Library := {|
  RR := rr;
  ParseIP := parseIPv4;
  NewRR := newRR
|}.

End Ref.

Section Model.
Context {L : Library}.

(** [dns.Msg]: header fields, the compression flag and the four sections. *)
Record Msg := mkMsg {
  Id : Z;
  Response : bool;
  Opcode : Z;
  Authoritative : bool;
  Truncated : bool;
  RecursionDesired : bool;
  RecursionAvailable : bool;
  Zero : bool;
  AuthenticatedData : bool;
  CheckingDisabled : bool;
  Rcode : Z;
  Compress : bool;
  Question : list dnsQuestion;
  Answer : list RR;
  Ns : list RR;
  Extra : list RR
}.

(** [new(dns.Msg)]: every field at its zero value. *)
Definition newMsg : Msg :=
  mkMsg 0 false 0 false false false false false false false 0 false [] [] [] [].

Definition setCompress (m : Msg) (b : bool) : Msg :=
  mkMsg (Id m) (Response m) (Opcode m) (Authoritative m) (Truncated m)
    (RecursionDesired m) (RecursionAvailable m) (Zero m) (AuthenticatedData m)
    (CheckingDisabled m) (Rcode m) b (Question m) (Answer m) (Ns m) (Extra m).

Definition setAnswer (m : Msg) (rrs : list RR) : Msg :=
  mkMsg (Id m) (Response m) (Opcode m) (Authoritative m) (Truncated m)
    (RecursionDesired m) (RecursionAvailable m) (Zero m) (AuthenticatedData m)
    (CheckingDisabled m) (Rcode m) (Compress m) (Question m) rrs (Ns m) (Extra m).

Definition setNs (m : Msg) (rrs : list RR) : Msg :=
  mkMsg (Id m) (Response m) (Opcode m) (Authoritative m) (Truncated m)
    (RecursionDesired m) (RecursionAvailable m) (Zero m) (AuthenticatedData m)
    (CheckingDisabled m) (Rcode m) (Compress m) (Question m) (Answer m) rrs (Extra m).

Definition setAuthoritative (m : Msg) (b : bool) : Msg :=
  mkMsg (Id m) (Response m) (Opcode m) b (Truncated m)
    (RecursionDesired m) (RecursionAvailable m) (Zero m) (AuthenticatedData m)
    (CheckingDisabled m) (Rcode m) (Compress m) (Question m) (Answer m) (Ns m) (Extra m).

(** [m.SetReply(r)] of the dns library: the reply takes the request's id and
    opcode, is marked as a response with a success code, copies the RD and CD
    bits of a standard query, and keeps the FIRST question only (none when
    the request has none). The sections and the authoritative flag of [m] are
    left as they are. *)
Definition SetReply (m r : Msg) : Msg :=
  let query := Opcode r =? OpcodeQuery in
  mkMsg (Id r) true (Opcode r) (Authoritative m) (Truncated m)
    (if query then RecursionDesired r else RecursionDesired m)
    (RecursionAvailable m) (Zero m) (AuthenticatedData m)
    (if query then CheckingDisabled r else CheckingDisabled m)
    0 (Compress m)
    (match Question r with q :: _ => [q] | [] => Question m end)
    (Answer m) (Ns m) (Extra m).

(** ** The world the handler runs in *)

(** The lines the handler logs, by call site. *)
Inductive LogLine :=
| LogNonQuery (r : Msg)                          (* line 27 *)
| LogCNAME (name d : string)                     (* line 41 *)
| LogQuery (queryType name : string) (delay : Z) (* line 67 *)
| LogRRFailed (text : string)                    (* line 81 *)
| LogResponding (rr : RR).                       (* line 106 *)

Record World := mkWorld {
  choiceMap : gmap string Z;   (* var choiceMap = make(map[string]int) *)
  written : list Msg;          (* messages passed to w.WriteMsg, oldest first *)
  slept : list Z;              (* arguments of time.Sleep, oldest first *)
  logged : list LogLine        (* log.Printf calls, oldest first *)
}.

Definition Run (T : Type) : Type := World -> Outcome T * World.

Definition ret {T} (x : T) : Run T := fun w => (Done x, w).

Definition bind {T U} (c : Run T) (k : T -> Run U) : Run U :=
  fun w => match c w with
           | (Done x, w') => k x w'
           | (Panicked p, w') => (Panicked p, w')
           end.

Definition panic {T} (p : PanicReason) : Run T := fun w => (Panicked p, w).

Notation "x <- c ;; k" := (bind c (fun x => k))
  (at level 100, c at next level, right associativity).
Notation "c ;; k" := (bind c (fun _ => k))
  (at level 100, right associativity).

Definition logPrintf (l : LogLine) : Run unit :=
  fun w => (Done tt, mkWorld (choiceMap w) (written w) (slept w) (logged w ++ [l])).

Definition Sleep (d : Z) : Run unit :=
  fun w => (Done tt, mkWorld (choiceMap w) (written w) (slept w ++ [d]) (logged w)).

Definition WriteMsg (m : Msg) : Run unit :=
  fun w => (Done tt, mkWorld (choiceMap w) (written w ++ [m]) (slept w) (logged w)).

(** [_, ok := choiceMap[k]] *)
Definition choiceHas (k : string) : Run bool :=
  fun w => (Done (bool_decide (is_Some (choiceMap w !! k))), w).

(** [choiceMap[k]]: a missing key reads as zero. *)
Definition choiceGet (k : string) : Run Z :=
  fun w => (Done (default 0 (choiceMap w !! k)), w).

(** [choiceMap[k] = v] *)
Definition choiceSet (k : string) (v : Z) : Run unit :=
  fun w => (Done tt, mkWorld (<[k := v]> (choiceMap w)) (written w) (slept w) (logged w)).

(** [xs[i]] with Go's bounds check. *)
Definition index {T} (xs : list T) (i : Z) : Run T :=
  match (if 0 <=? i then xs !! Z.to_nat i else None) with
  | Some x => ret x
  | None => panic (IndexOutOfRange i (Z.of_nat (length xs)))
  end.

(** [for _, x := range xs { s = body x s }] *)
Fixpoint forRange {X S} (xs : list X) (body : X -> S -> Run S) (s : S) : Run S :=
  match xs with
  | [] => ret s
  | x :: xs' => s' <- body x s ;; forRange xs' body s'
  end.

(** ** The handler *)

(** Lines 47-65: the [switch q.Qtype], giving [queryType], [answers] and
    [delay] from their initial values [""], [[]] and [0]. *)
Definition selectAnswers (records : Records) (aDelay aaaaDelay : Z)
    (cname : bool) (qtype : Z) : string * list string * Z :=
  if qtype =? TypeA then
    (if cname && (0 <? Z.of_nat (length (CNAMEA records)))
     then ("A", CNAMEA records, aDelay)
     else ("A", A records, aDelay))
  else if qtype =? TypeAAAA then
    (if cname && (0 <? Z.of_nat (length (CNAMEAAAA records)))
     then ("AAAA", CNAMEAAAA records, aaaaDelay)
     else ("AAAA", AAAA records, aaaaDelay))
  else ("", [], 0).

(** Lines 75-84: the body of the loop over the selected addresses. *)
Definition appendAddress (d queryType : string) (ip : string) (m : Msg) : Run Msg :=
  if negb (ParseIP ip) then ret m
  else match NewRR (d +:+ " " +:+ queryType +:+ " " +:+ ip) with
       | None => logPrintf (LogRRFailed (d +:+ " " +:+ queryType +:+ " " +:+ ip)) ;; ret m
       | Some rr => ret (setAnswer m (Answer m ++ [rr]))
       end.

(** Lines 87-93: the alternation step. *)
Definition alternate (name : string) (m : Msg) : Run Msg :=
  ok <- choiceHas name ;;
  (if negb ok then choiceSet name 0 else ret tt) ;;
  c <- choiceGet name ;;
  choiceSet name (wrapInt (c + 1)) ;;
  c' <- choiceGet name ;;
  rr <- index (Answer m) (Z.rem c' 2) ;;
  ret (setAnswer m [rr]).

(** Lines 33-94: the body of the loop over the questions of the reply. *)
Definition serveQuestion (records : Records) (aDelay aaaaDelay : Z)
    (alternateRecords : bool) (q : dnsQuestion) (m : Msg) : Run Msg :=
  let cname := HasPrefix (Name q) "cname." in
  m <- (if cname then
          let d := TrimPrefix (Name q) "cname." in
          logPrintf (LogCNAME (Name q) d) ;;
          match NewRR (Name q +:+ " CNAME " +:+ d) with
          | Some rr => ret (setAnswer m (Answer m ++ [rr]))
          | None => ret m
          end
        else ret m) ;;
  let '(queryType, answers, delay) :=
    selectAnswers records aDelay aaaaDelay cname (Qtype q) in
  logPrintf (LogQuery queryType (Name q) delay) ;;
  Sleep delay ;;
  if 0 <? Z.of_nat (length answers) then
    let d := if cname then TrimPrefix (Name q) "cname." else Name q in
    m <- forRange answers (appendAddress d queryType) m ;;
    if alternateRecords then alternate (Name q) m else ret m
  else ret m.

(** Lines 97-109: the authority record, the authoritative flag, the log of
    the final answers and the write of the reply. *)
Definition finishReply (authority : string) (m : Msg) : Run unit :=
  m <- (if 0 <? Z.of_nat (String.length authority) then
          q0 <- index (Question m) 0 ;;
          match NewRR (Name q0 +:+ " NS " +:+ authority) with
          | Some rr => ret (setNs m (Ns m ++ [rr]))
          | None => ret m
          end
        else ret m) ;;
  let m := setAuthoritative m true in
  forRange (Answer m) (fun answer _ => logPrintf (LogResponding answer)) tt ;;
  WriteMsg m.

(** Lines 20-111: [newDNSHandler], applied to a request [r]; the response
    writer [w] is the [written] list of the world. *)
Definition newDNSHandler (records : Records) (aDelay aaaaDelay : Z)
    (authority : string) (alternateRecords : bool) (r : Msg) : Run unit :=
  let m := SetReply newMsg r in
  let m := setCompress m false in
  if negb (Opcode r =? OpcodeQuery) then
    logPrintf (LogNonQuery r) ;;
    WriteMsg m
  else
    m <- forRange (Question m)
           (serveQuestion records aDelay aaaaDelay alternateRecords) m ;;
    finishReply authority m.

(** ** What the handler's loops compute *)

(** The record line 79 builds for one configured address, when the address
    passes the check of line 76 and the record text is accepted. *)
Definition addressRecord (d queryType ip : string) : option RR :=
  if ParseIP ip then NewRR (d +:+ " " +:+ queryType +:+ " " +:+ ip) else None.

(** The "Failed to create RR" lines of one pass over the addresses. *)
Definition failedLines (d queryType : string) (answers : list string) : list LogLine :=
  omap (fun ip =>
          if ParseIP ip then
            match NewRR (d +:+ " " +:+ queryType +:+ " " +:+ ip) with
            | None => Some (LogRRFailed (d +:+ " " +:+ queryType +:+ " " +:+ ip))
            | Some _ => None
            end
          else None) answers.

Definition addLogged (w : World) (ls : list LogLine) : World :=
  mkWorld (choiceMap w) (written w) (slept w) (logged w ++ ls).

(** The CNAME record of lines 38-46, as a list of zero or one record. *)
Definition cnameRecords (name : string) : list RR :=
  if HasPrefix name "cname." then
    match NewRR (name +:+ " CNAME " +:+ TrimPrefix name "cname.") with
    | Some rr => [rr]
    | None => []
    end
  else [].

(** The owner name [d] of lines 70-73. *)
Definition ownerName (name : string) : string :=
  if HasPrefix name "cname." then TrimPrefix name "cname." else name.

(** The NS record of lines 97-102, as a list of zero or one record. *)
Definition nsRecords (name authority : string) : list RR :=
  if 0 <? Z.of_nat (String.length authority) then
    match NewRR (name +:+ " NS " +:+ authority) with
    | Some rr => [rr]
    | None => []
    end
  else [].

(** [xs[i]] as a partial function: the value [index] returns. *)
Definition at_index {T} (xs : list T) (i : Z) : option T :=
  if 0 <=? i then xs !! Z.to_nat i else None.

(** The counter of [name] after the increment of line 91. *)
Definition nextChoice (w : World) (name : string) : Z :=
  wrapInt (default 0 (choiceMap w !! name) + 1).

(** The reply to request [r] once its answer and authority sections are
    known: lines 22-24 and 103. *)
Definition replyWith (r : Msg) (answers ns : list RR) : Msg :=
  setAuthoritative
    (setNs (setAnswer (setCompress (SetReply newMsg r) false) answers) ns) true.

(** The "Query for ..., replying with CNAME ..." line of line 41, as a list
    of zero or one line. *)
Definition cnameLog (name : string) : list LogLine :=
  if HasPrefix name "cname." then [LogCNAME name (TrimPrefix name "cname.")]
  else [].

(** The lines one pass of the loop body logs before the alternation step. *)
Definition queryLog (name queryType : string) (delay : Z)
    (answers : list string) : list LogLine :=
  cnameLog name ++ [LogQuery queryType name delay] ++
  failedLines (ownerName name) queryType answers.

(** The delay line 68 sleeps for, by query type. *)
Definition delayFor (aDelay aaaaDelay : Z) (qtype : Z) : Z :=
  if qtype =? TypeA then aDelay
  else if qtype =? TypeAAAA then aaaaDelay
  else 0.

End Model.

(** ** Concrete requests and configurations for the examples *)
Module Sample.

(** A standard query with one question of class IN. *)
Definition query (name : string) (qtype : Z) : @Msg Ref.lib :=
  mkMsg 4242 false OpcodeQuery false false true false false false false 0 false
    [mkQuestion name qtype 1] [] [] [].

(** A dynamic-update message (opcode 5). *)
Definition update (name : string) : @Msg Ref.lib :=
  mkMsg 4243 false 5 false false false false false false false 0 false
    [mkQuestion name 6 1] [] [] [].

(** A standard query whose question section is empty. *)
Definition noQuestion : @Msg Ref.lib :=
  mkMsg 4244 false OpcodeQuery false false true false false false false 0 false
    [] [] [] [].

(** The first question of [query name qtype]. *)
Definition question (name : string) (qtype : Z) : dnsQuestion :=
  mkQuestion name qtype 1.

(** The records the instance builds. *)
Definition aRecord (name ip : string) : Ref.rr := Ref.mkRR name "A" ip.
Definition cnameRecord (name target : string) : Ref.rr := Ref.mkRR name "CNAME" target.
Definition nsRecord (name host : string) : Ref.rr := Ref.mkRR name "NS" host.

(** The world at process start: an empty [choiceMap], nothing written. *)
Definition boot : @World Ref.lib := mkWorld ∅ [] [] [].

Definition twoA : Records := mkRecords ["1.1.1.1"; "2.2.2.2"] [] [] [].
Definition oneA : Records := mkRecords ["1.2.3.4"] [] [] [].
Definition badA : Records := mkRecords ["not-an-ip"] [] [] [].
Definition mixedA : Records := mkRecords ["1.1.1.1"; "not-an-ip"; "2.2.2.2"] [] [] [].
Definition withCNAME : Records :=
  mkRecords ["1.1.1.1"] ["2001:db8::1"] ["9.9.9.9"] [].
Definition threeA : Records :=
  mkRecords ["1.1.1.1"; "2.2.2.2"; "3.3.3.3"] [] [] [].

(** A standard query of type TXT (16). *)
Definition TypeTXT : Z := 16.

End Sample.

(** ** Properties of the handler *)

Section Theory.
Context {L : Library}.

Lemma addLogged_nil w : addLogged w [] = w.
Proof. destruct w; unfold addLogged; simpl. by rewrite app_nil_r. Qed.

Lemma setAnswer_id m : setAnswer m (Answer m) = m.
Proof. by destruct m. Qed.

Lemma setAnswer_twice m xs ys : setAnswer (setAnswer m xs) ys = setAnswer m ys.
Proof. reflexivity. Qed.

Lemma bind_ret_l {T U} (x : T) (k : T -> Run U) w : bind (ret x) k w = k x w.
Proof. reflexivity. Qed.

Lemma bind_done {T U} (c : Run T) (k : T -> Run U) w x w' :
  c w = (Done x, w') -> bind c k w = k x w'.
Proof. intros H. unfold bind. by rewrite H. Qed.

(** The loop of lines 74-85 never panics: it appends the constructible
    records of the valid addresses, in order, and logs the failures. *)
Lemma forRange_appendAddress d queryType answers m w :
  forRange answers (appendAddress d queryType) m w =
  (Done (setAnswer m (Answer m ++ omap (addressRecord d queryType) answers)),
   addLogged w (failedLines d queryType answers)).
Proof.
  revert m w. induction answers as [|ip answers IH]; intros m w.
  - simpl. rewrite app_nil_r, setAnswer_id, addLogged_nil. reflexivity.
  - cbn [forRange omap list_omap failedLines]. unfold appendAddress at 1, addressRecord at 1.
    destruct (ParseIP ip) eqn:Hip; simpl.
    + destruct (NewRR (d +:+ " " +:+ queryType +:+ " " +:+ ip)) as [rr|] eqn:Hrr.
      * rewrite bind_ret_l, IH. simpl. rewrite <- app_assoc. reflexivity.
      * unfold bind at 1. simpl. rewrite IH.
        unfold failedLines, addLogged. simpl. rewrite <- app_assoc. reflexivity.
    + rewrite bind_ret_l, IH. reflexivity.
Qed.

(** The loop of lines 105-107 logs every answer of the reply. *)
Lemma forRange_logResponding (rrs : list RR) w :
  forRange rrs (fun answer _ => logPrintf (LogResponding answer)) tt w =
  (Done tt, addLogged w (map LogResponding rrs)).
Proof.
  revert w. induction rrs as [|rr rrs IH]; intros w.
  - simpl. by rewrite addLogged_nil.
  - simpl. unfold bind at 1. simpl. rewrite IH.
    unfold addLogged. simpl. rewrite <- app_assoc. reflexivity.
Qed.

(** Lines 87-93 in one step: the counter is stored incremented, and the
    record at its parity is kept, or the index is out of range. *)
Lemma alternate_spec name m w :
  alternate name m w =
  (match at_index (Answer m) (Z.rem (nextChoice w name) 2) with
   | Some rr => Done (setAnswer m [rr])
   | None => Panicked (IndexOutOfRange (Z.rem (nextChoice w name) 2)
                         (Z.of_nat (length (Answer m))))
   end,
   mkWorld (<[name := nextChoice w name]> (choiceMap w))
     (written w) (slept w) (logged w)).
Proof.
  unfold alternate, nextChoice, bind, choiceHas, choiceGet, choiceSet, index, at_index.
  destruct (choiceMap w !! name) as [c|] eqn:Hc; simpl.
  - rewrite ?bool_decide_eq_true_2 by eauto.
    repeat (rewrite ?Hc, ?lookup_insert_eq; simpl).
    destruct (if 0 <=? Z.rem (wrapInt (c + 1)) 2
              then Answer m !! Z.to_nat (Z.rem (wrapInt (c + 1)) 2) else None);
      reflexivity.
  - rewrite ?bool_decide_eq_false_2 by (intros [? ?]; congruence).
    repeat (rewrite ?Hc, ?lookup_insert_eq, ?insert_insert_eq; simpl).
    destruct (Answer m !! Z.to_nat (Z.rem (wrapInt (0 + 1)) 2)); reflexivity.
Qed.

(** Lines 33-86: up to the alternation step the loop body cannot panic; it
    appends the CNAME record and the address records to the answers, and
    touches neither [choiceMap] nor the transport. *)
Lemma serveQuestion_spec records aDelay aaaaDelay alternateRecords q m w
    queryType answers delay :
  selectAnswers records aDelay aaaaDelay (HasPrefix (Name q) "cname.") (Qtype q)
    = (queryType, answers, delay) ->
  exists w1,
    choiceMap w1 = choiceMap w /\ written w1 = written w /\
    slept w1 = (slept w ++ [delay]) /\
    serveQuestion records aDelay aaaaDelay alternateRecords q m w =
    let built := setAnswer m (Answer m ++ cnameRecords (Name q) ++
                   omap (addressRecord (ownerName (Name q)) queryType) answers) in
    if alternateRecords && (0 <? Z.of_nat (length answers))
    then alternate (Name q) built w1
    else (Done built, w1).
Proof.
  intros Hsel. unfold serveQuestion. rewrite Hsel.
  unfold cnameRecords, ownerName.
  set (text := Name q +:+ " CNAME " +:+ TrimPrefix (Name q) "cname.").
  set (d := if HasPrefix (Name q) "cname."
            then TrimPrefix (Name q) "cname." else Name q).
  (* the world and the reply after lines 38-46 *)
  set (m1 := setAnswer m (Answer m ++
               (if HasPrefix (Name q) "cname."
                then match NewRR text with Some rr => [rr] | None => [] end
                else []))).
  set (w0 := addLogged w (if HasPrefix (Name q) "cname."
                          then [LogCNAME (Name q) (TrimPrefix (Name q) "cname.")]
                          else [])).
  assert (Hcname :
    (if HasPrefix (Name q) "cname."
     then bind (logPrintf (LogCNAME (Name q) (TrimPrefix (Name q) "cname.")))
            (fun _ => match NewRR text with
                      | Some rr => ret (setAnswer m (Answer m ++ [rr]))
                      | None => ret m
                      end)
     else ret m) w = (Done m1, w0)).
  { subst m1 w0. destruct (HasPrefix (Name q) "cname.").
    - unfold bind, logPrintf, ret, addLogged. simpl.
      destruct (NewRR text); [reflexivity|].
      by rewrite app_nil_r, setAnswer_id.
    - unfold ret. by rewrite app_nil_r, setAnswer_id, addLogged_nil. }
  rewrite (bind_done _ _ _ _ _ Hcname).
  unfold bind at 1, logPrintf at 1. unfold bind at 1, Sleep at 1. simpl.
  set (w1 := mkWorld _ _ _ _).
  destruct (0 <? Z.of_nat (length answers)) eqn:Hlen.
  - rewrite (bind_done _ _ _ _ _ (forRange_appendAddress d queryType answers m1 w1)).
    exists (addLogged w1 (failedLines d queryType answers)).
    split; [reflexivity|]. split; [reflexivity|]. split; [reflexivity|].
    subst m1. simpl. rewrite <- app_assoc.
    rewrite andb_true_r. destruct alternateRecords; reflexivity.
  - exists w1. split; [reflexivity|]. split; [reflexivity|]. split; [reflexivity|].
    rewrite andb_false_r.
    assert (answers = []) as ->.
    { apply Z.ltb_ge in Hlen. destruct answers; [done | simpl length in Hlen; lia]. }
    simpl. rewrite app_nil_r. reflexivity.
Qed.

(** Lines 97-109 on a reply that has a first question: the NS record is
    appended when it can be built, and the reply is written. *)
Lemma finishReply_spec authority m q qs w :
  Question m = q :: qs ->
  exists w',
    choiceMap w' = choiceMap w /\ slept w' = slept w /\
    finishReply authority m w = (Done tt, w') /\
    written w' =
      (written w ++
       [setAuthoritative (setNs m (Ns m ++ nsRecords (Name q) authority)) true]).
Proof.
  intros Hm. unfold finishReply, nsRecords, bind, index, ret. rewrite Hm.
  destruct (0 <? Z.of_nat (String.length authority)); simpl;
    [destruct (NewRR (Name q +:+ " NS " +:+ authority)) as [rr|]|];
    rewrite forRange_logResponding;
    (eexists; split; [|split; [|split; [reflexivity|]]]; try reflexivity);
    simpl; destruct m; simpl; by rewrite app_nil_r.
Qed.

(** The handler on a standard query with a first question [q]: without
    alternation (or with an empty selected set) it always replies; with
    alternation it stores the incremented counter and either replies with the
    record at the counter's parity or panics on the index. *)
Lemma handler_query records aDelay aaaaDelay authority alternateRecords r q qs w
    queryType answers delay :
  Opcode r = OpcodeQuery ->
  Question r = q :: qs ->
  selectAnswers records aDelay aaaaDelay (HasPrefix (Name q) "cname.") (Qtype q)
    = (queryType, answers, delay) ->
  let built := (cnameRecords (Name q) ++
                omap (addressRecord (ownerName (Name q)) queryType) answers) in
  let ns := nsRecords (Name q) authority in
  let c := nextChoice w (Name q) in
  exists w',
    slept w' = (slept w ++ [delay]) /\
    if alternateRecords && (0 <? Z.of_nat (length answers)) then
      choiceMap w' = <[Name q := c]> (choiceMap w) /\
      match at_index built (Z.rem c 2) with
      | Some rr =>
          newDNSHandler records aDelay aaaaDelay authority alternateRecords r w
            = (Done tt, w') /\
          written w' = (written w ++ [replyWith r [rr] ns])
      | None =>
          newDNSHandler records aDelay aaaaDelay authority alternateRecords r w
            = (Panicked (IndexOutOfRange (Z.rem c 2) (Z.of_nat (length built))), w') /\
          written w' = written w
      end
    else
      choiceMap w' = choiceMap w /\
      newDNSHandler records aDelay aaaaDelay authority alternateRecords r w
        = (Done tt, w') /\
      written w' = (written w ++ [replyWith r built ns]).
Proof.
  intros Hop Hq Hsel built ns c.
  assert (Hrun :
    newDNSHandler records aDelay aaaaDelay authority alternateRecords r w =
    bind (serveQuestion records aDelay aaaaDelay alternateRecords q
            (setCompress (SetReply newMsg r) false))
         (finishReply authority) w).
  { unfold newDNSHandler. rewrite Hop, Z.eqb_refl. cbn [negb].
    replace (Question (setCompress (SetReply newMsg r) false)) with [q]
      by (simpl; by rewrite Hq).
    cbn [forRange]. unfold bind.
    destruct (serveQuestion _ _ _ _ _ _ _) as [[m|p] w2]; reflexivity. }
  destruct (serveQuestion_spec records aDelay aaaaDelay alternateRecords q
              (setCompress (SetReply newMsg r) false) w _ _ _ Hsel)
    as (w1 & Hcm & Hwr & Hsl & Hserve).
  unfold bind in Hrun. rewrite Hserve in Hrun. clear Hserve.
  cbn [Answer setCompress SetReply newMsg app] in Hrun. fold built in Hrun.
  destruct (alternateRecords && (0 <? Z.of_nat (length answers))).
  - rewrite alternate_spec in Hrun. cbn [Answer setAnswer] in Hrun.
    unfold nextChoice in Hrun. rewrite Hcm in Hrun.
    fold (nextChoice w (Name q)) in Hrun. fold c in Hrun.
    destruct (at_index built (Z.rem c 2)) as [rr|].
    + rewrite setAnswer_twice in Hrun.
      match type of Hrun with context [finishReply _ ?m ?w2] =>
        destruct (finishReply_spec authority m q [] w2)
          as (w3 & Hcm3 & Hsl3 & Hfin & Hwr3); [simpl; by rewrite Hq|]
      end.
      simpl in Hcm3, Hsl3, Hwr3. exists w3.
      rewrite Hrun, Hfin, Hsl3, Hcm3, Hwr3, Hwr, Hsl. done.
    + rewrite Hrun. eexists. split; [|split; [|split; [reflexivity|]]]; simpl; done.
  - match type of Hrun with context [finishReply _ ?m ?w2] =>
      destruct (finishReply_spec authority m q [] w2)
        as (w3 & Hcm3 & Hsl3 & Hfin & Hwr3); [simpl; by rewrite Hq|]
    end.
    simpl in Hcm3, Hsl3, Hwr3. exists w3.
    rewrite Hrun, Hfin, Hsl3, Hcm3, Hwr3, Hwr, Hsl. done.
Qed.

(** ** Arithmetic of the counter *)

Lemma wrapInt_small x : - 2 ^ 63 <= x < 2 ^ 63 -> wrapInt x = x.
Proof. intros H. unfold wrapInt. rewrite Z.mod_small; lia. Qed.

Lemma rem2_parity x : 0 <= x -> Z.rem x 2 = if Z.even x then 0 else 1.
Proof. intros H. rewrite Z.rem_mod_nonneg by lia. apply Zmod_even. Qed.

Lemma at_index_nil {T} (i : Z) : at_index (@nil T) i = None.
Proof. unfold at_index. by destruct (0 <=? i). Qed.

Lemma selectAnswers_direct_A records aDelay aaaaDelay :
  selectAnswers records aDelay aaaaDelay false TypeA = ("A", A records, aDelay).
Proof. reflexivity. Qed.

Lemma nonempty_length {T} (xs : list T) :
  xs <> [] -> (0 <? Z.of_nat (length xs)) = true.
Proof. destruct xs; [done|]. intros _. apply Z.ltb_lt. simpl length. lia. Qed.

Lemma nonempty_string_length (s : string) :
  s <> "" -> (0 <? Z.of_nat (String.length s)) = true.
Proof. destruct s; [done|]. intros _. apply Z.ltb_lt. simpl String.length. lia. Qed.

(** ** Alternation *)

(** One alternating A query for a direct name with two valid addresses: the
    counter is incremented first, and the parity of the incremented counter
    selects the record (even: first address, odd: second). *)
Lemma alternation_step records aDelay aaaaDelay authority r q qs a1 a2 rr1 rr2 w :
  Opcode r = OpcodeQuery -> Question r = q :: qs -> Qtype q = TypeA ->
  HasPrefix (Name q) "cname." = false ->
  A records = [a1; a2] ->
  addressRecord (Name q) "A" a1 = Some rr1 ->
  addressRecord (Name q) "A" a2 = Some rr2 ->
  0 <= default 0 (choiceMap w !! Name q) < 2 ^ 63 - 1 ->
  exists reply w',
    newDNSHandler records aDelay aaaaDelay authority true r w = (Done tt, w') /\
    written w' = written w ++ [reply] /\
    Answer reply =
      [if Z.even (default 0 (choiceMap w !! Name q) + 1) then rr1 else rr2] /\
    choiceMap w' !! Name q = Some (default 0 (choiceMap w !! Name q) + 1).
Proof.
  intros Hop Hq Hqt Hpre HA Hr1 Hr2 Hc.
  destruct (handler_query records aDelay aaaaDelay authority true r q qs w
              "A" [a1; a2] aDelay Hop Hq) as (w' & _ & Hcm & Hrun).
  { rewrite Hpre, Hqt, selectAnswers_direct_A, HA. reflexivity. }
  revert Hrun. unfold cnameRecords, ownerName. rewrite Hpre. simpl.
  rewrite Hr1, Hr2. unfold nextChoice in *.
  rewrite wrapInt_small in * by lia.
  rewrite rem2_parity by lia.
  set (c := default 0 (choiceMap w !! Name q)) in *.
  destruct (Z.even (c + 1)); simpl; intros [Hrun Hwr];
    (eexists; exists w'; split; [exact Hrun|]; split; [exact Hwr|];
     split; [reflexivity|]; rewrite Hcm; apply lookup_insert_eq).
Qed.

(** Three alternating queries in a row for a name with no counter yet. *)
Lemma alternation_cycle records aDelay aaaaDelay authority r q qs a1 a2 rr1 rr2 w :
  Opcode r = OpcodeQuery -> Question r = q :: qs -> Qtype q = TypeA ->
  HasPrefix (Name q) "cname." = false ->
  A records = [a1; a2] ->
  addressRecord (Name q) "A" a1 = Some rr1 ->
  addressRecord (Name q) "A" a2 = Some rr2 ->
  choiceMap w !! Name q = None ->
  exists reply1 reply2 reply3 w1 w2 w3,
    newDNSHandler records aDelay aaaaDelay authority true r w = (Done tt, w1) /\
    written w1 = written w ++ [reply1] /\ Answer reply1 = [rr2] /\
    choiceMap w1 !! Name q = Some 1 /\
    newDNSHandler records aDelay aaaaDelay authority true r w1 = (Done tt, w2) /\
    written w2 = written w1 ++ [reply2] /\ Answer reply2 = [rr1] /\
    choiceMap w2 !! Name q = Some 2 /\
    newDNSHandler records aDelay aaaaDelay authority true r w2 = (Done tt, w3) /\
    written w3 = written w2 ++ [reply3] /\ Answer reply3 = [rr2] /\
    choiceMap w3 !! Name q = Some 3.
Proof.
  intros Hop Hq Hqt Hpre HA Hr1 Hr2 Hfresh.
  destruct (alternation_step records aDelay aaaaDelay authority r q qs a1 a2
              rr1 rr2 w Hop Hq Hqt Hpre HA Hr1 Hr2)
    as (reply1 & w1 & Hrun1 & Hwr1 & Hans1 & Hcm1); [rewrite Hfresh; simpl; lia|].
  rewrite Hfresh in Hans1, Hcm1. simpl in Hans1, Hcm1.
  destruct (alternation_step records aDelay aaaaDelay authority r q qs a1 a2
              rr1 rr2 w1 Hop Hq Hqt Hpre HA Hr1 Hr2)
    as (reply2 & w2 & Hrun2 & Hwr2 & Hans2 & Hcm2); [rewrite Hcm1; simpl; lia|].
  rewrite Hcm1 in Hans2, Hcm2. simpl in Hans2, Hcm2.
  destruct (alternation_step records aDelay aaaaDelay authority r q qs a1 a2
              rr1 rr2 w2 Hop Hq Hqt Hpre HA Hr1 Hr2)
    as (reply3 & w3 & Hrun3 & Hwr3 & Hans3 & Hcm3); [rewrite Hcm2; simpl; lia|].
  rewrite Hcm2 in Hans3, Hcm3. simpl in Hans3, Hcm3.
  exists reply1, reply2, reply3, w1, w2, w3. repeat split; assumption.
Qed.

(** C1 (as amended). With alternation enabled and exactly two valid A
    addresses configured, for a name without the "cname." prefix: the
    counter of the name is incremented before the selection, and the single
    record kept is chosen by the parity of the incremented counter (odd:
    second candidate, even: first). So when the name has no counter yet, the
    first A query returns only the SECOND configured address, the second
    query only the first, and the third the second again. *)
Theorem C1_alternation_order records aDelay aaaaDelay authority r q qs
    a1 a2 rr1 rr2 :
  Opcode r = OpcodeQuery -> Question r = q :: qs -> Qtype q = TypeA ->
  HasPrefix (Name q) "cname." = false ->
  A records = [a1; a2] ->
  addressRecord (Name q) "A" a1 = Some rr1 ->
  addressRecord (Name q) "A" a2 = Some rr2 ->
  (forall w,
     0 <= default 0 (choiceMap w !! Name q) < 2 ^ 63 - 1 ->
     exists reply w',
       newDNSHandler records aDelay aaaaDelay authority true r w = (Done tt, w') /\
       written w' = written w ++ [reply] /\
       Answer reply =
         [if Z.odd (default 0 (choiceMap w !! Name q) + 1) then rr2 else rr1] /\
       choiceMap w' !! Name q = Some (default 0 (choiceMap w !! Name q) + 1)) /\
  (forall w,
     choiceMap w !! Name q = None ->
     exists reply1 reply2 reply3 w1 w2 w3,
       newDNSHandler records aDelay aaaaDelay authority true r w = (Done tt, w1) /\
       written w1 = written w ++ [reply1] /\ Answer reply1 = [rr2] /\
       newDNSHandler records aDelay aaaaDelay authority true r w1 = (Done tt, w2) /\
       written w2 = written w1 ++ [reply2] /\ Answer reply2 = [rr1] /\
       newDNSHandler records aDelay aaaaDelay authority true r w2 = (Done tt, w3) /\
       written w3 = written w2 ++ [reply3] /\ Answer reply3 = [rr2]).
Proof.
  intros Hop Hq Hqt Hpre HA Hr1 Hr2. split.
  - intros w Hc.
    destruct (alternation_step records aDelay aaaaDelay authority r q qs a1 a2
                rr1 rr2 w Hop Hq Hqt Hpre HA Hr1 Hr2 Hc)
      as (reply & w' & Hrun & Hwr & Hans & Hcm).
    exists reply, w'. split; [exact Hrun|]. split; [exact Hwr|].
    split; [|exact Hcm]. rewrite Hans, <- Z.negb_even.
    by destruct (Z.even _).
  - intros w Hfresh.
    destruct (alternation_cycle records aDelay aaaaDelay authority r q qs a1 a2
                rr1 rr2 w Hop Hq Hqt Hpre HA Hr1 Hr2 Hfresh)
      as (reply1 & reply2 & reply3 & w1 & w2 & w3 & H1 & H2 & H3 & _ &
          H4 & H5 & H6 & _ & H7 & H8 & H9 & _).
    exists reply1, reply2, reply3, w1, w2, w3. repeat split; assumption.
Qed.

(** The alternation step on fewer than two built records, for a name with no
    counter yet: the incremented counter is 1 and the index is out of
    range. *)
Lemma alternate_short_answers name m w :
  (length (Answer m) < 2)%nat ->
  choiceMap w !! name = None ->
  exists w',
    alternate name m w =
      (Panicked (IndexOutOfRange 1 (Z.of_nat (length (Answer m)))), w') /\
    written w' = written w.
Proof.
  intros Hlen Hfresh. rewrite alternate_spec. unfold nextChoice. rewrite Hfresh.
  change (wrapInt (default 0 None + 1)) with 1.
  change (Z.rem 1 2) with 1. unfold at_index.
  change (0 <=? 1) with true. cbv iota.
  rewrite (lookup_ge_None_2 (Answer m) (Z.to_nat 1))
    by (change (Z.to_nat 1) with 1%nat; lia).
  eexists. split; reflexivity.
Qed.

(** C2 (the code against the claim). With alternation enabled, a direct A
    query over a non-empty configured set whose entries are all invalid
    builds no record, and the alternation step then indexes the empty answer
    list: the handler panics with an index out of range and writes no
    reply, whatever the counter of the name is. *)
Theorem C2_all_invalid_panics records aDelay aaaaDelay authority r q qs w :
  Opcode r = OpcodeQuery -> Question r = q :: qs -> Qtype q = TypeA ->
  HasPrefix (Name q) "cname." = false ->
  A records <> [] ->
  Forall (fun ip => addressRecord (Name q) "A" ip = None) (A records) ->
  exists i w',
    newDNSHandler records aDelay aaaaDelay authority true r w
      = (Panicked (IndexOutOfRange i 0), w') /\
    written w' = written w.
Proof.
  intros Hop Hq Hqt Hpre Hne Hbad.
  destruct (handler_query records aDelay aaaaDelay authority true r q qs w
              "A" (A records) aDelay Hop Hq) as (w' & _ & Hrun).
  { rewrite Hpre, Hqt. apply selectAnswers_direct_A. }
  revert Hrun. rewrite (nonempty_length _ Hne). simpl.
  unfold cnameRecords, ownerName. rewrite Hpre. simpl.
  assert (omap (addressRecord (Name q) "A") (A records) = []) as ->.
  { clear Hne. induction Hbad as [|ip ips Hip _ IH]; [done|].
    cbn [omap list_omap]. rewrite Hip. exact IH. }
  rewrite at_index_nil. intros (_ & Hrun & Hwr).
  eexists. exists w'. split; [exact Hrun | exact Hwr].
Qed.

(** ** The CNAME record *)

(** C4 (as amended). For a query whose name starts with "cname." and whose
    CNAME record text is accepted, whatever the query type, the reply's
    first answer record is that CNAME record, provided alternation is
    disabled or the answer set selected for the query is empty. *)
Theorem C4_leading_cname records aDelay aaaaDelay authority alternateRecords
    r q qs rr w :
  Opcode r = OpcodeQuery -> Question r = q :: qs ->
  HasPrefix (Name q) "cname." = true ->
  NewRR (Name q +:+ " CNAME " +:+ TrimPrefix (Name q) "cname.") = Some rr ->
  alternateRecords = false \/
    (selectAnswers records aDelay aaaaDelay true (Qtype q)).1.2 = [] ->
  exists reply w' rest,
    newDNSHandler records aDelay aaaaDelay authority alternateRecords r w
      = (Done tt, w') /\
    written w' = written w ++ [reply] /\
    Answer reply = rr :: rest.
Proof.
  intros Hop Hq Hpre Hrr Hplain.
  destruct (selectAnswers records aDelay aaaaDelay true (Qtype q))
    as [[queryType answers] delay] eqn:Hsel.
  destruct (handler_query records aDelay aaaaDelay authority alternateRecords
              r q qs w queryType answers delay Hop Hq) as (w' & _ & Hrun).
  { by rewrite Hpre. }
  revert Hrun.
  assert (alternateRecords && (0 <? Z.of_nat (length answers)) = false) as ->.
  { destruct Hplain as [-> | Hnil]; [done|].
    simpl in Hnil. subst answers. apply andb_false_r. }
  unfold cnameRecords. rewrite Hpre, Hrr. intros (_ & Hrun & Hwr).
  eexists. exists w'. eexists. split; [exact Hrun|]. split; [exact Hwr|].
  reflexivity.
Qed.

(** ** The authority record *)

(** C5 (as amended). With a non-empty authority hostname configured, every
    reply the handler sends to a message with the standard query opcode and
    a first question, whatever the query type and the answer sets, has as
    its authority section the NS record naming that host for the first
    question's name when that record can be built, and an empty authority
    section when it cannot (the failure is not fatal). The only runs that
    send no reply are panics of the alternation step. *)
Theorem C5_authority_record records aDelay aaaaDelay authority alternateRecords
    r q qs w :
  authority <> "" ->
  Opcode r = OpcodeQuery -> Question r = q :: qs ->
  exists o w',
    newDNSHandler records aDelay aaaaDelay authority alternateRecords r w = (o, w') /\
    ((o = Done tt /\
      exists reply, written w' = written w ++ [reply] /\
        Ns reply = match NewRR (Name q +:+ " NS " +:+ authority) with
                   | Some rr => [rr]
                   | None => []
                   end) \/
     (exists p, o = Panicked p /\ alternateRecords = true /\
        written w' = written w)).
Proof.
  intros Hauth Hop Hq.
  destruct (selectAnswers records aDelay aaaaDelay
              (HasPrefix (Name q) "cname.") (Qtype q))
    as [[queryType answers] delay] eqn:Hsel.
  destruct (handler_query records aDelay aaaaDelay authority alternateRecords
              r q qs w queryType answers delay Hop Hq Hsel) as (w' & _ & Hrun).
  revert Hrun. unfold nsRecords. rewrite (nonempty_string_length _ Hauth).
  destruct (alternateRecords && (0 <? Z.of_nat (length answers))) eqn:Halt.
  - intros [_ Hrun].
    destruct (at_index _ _) as [rr|]; destruct Hrun as [Hrun Hwr];
      eexists; exists w'; (split; [exact Hrun|]).
    + left. split; [done|]. eexists. split; [exact Hwr | reflexivity].
    + right. eexists. split; [done|]. split; [|exact Hwr].
      by destruct alternateRecords.
  - intros (_ & Hrun & Hwr). eexists. exists w'. split; [exact Hrun|].
    left. split; [done|]. eexists. split; [exact Hwr | reflexivity].
Qed.

(** ** Messages that are not standard queries *)

(** Lines 26-30: the short cut for a message that is not a standard query. *)
Lemma non_query_reply records aDelay aaaaDelay authority alternateRecords r w :
  Opcode r <> OpcodeQuery ->
  exists reply w',
    newDNSHandler records aDelay aaaaDelay authority alternateRecords r w
      = (Done tt, w') /\
    written w' = written w ++ [reply] /\
    reply = setCompress (SetReply newMsg r) false.
Proof.
  intros Hop. unfold newDNSHandler.
  apply Z.eqb_neq in Hop. rewrite Hop. cbn [negb].
  eexists. eexists. split; [reflexivity|]. split; reflexivity.
Qed.

(** C6. A message whose opcode is not the standard query opcode never makes
    the handler panic: the handler writes one reply, whose answer section is
    empty and whose authoritative flag is unset. *)
Theorem C6_non_query_opcode records aDelay aaaaDelay authority alternateRecords
    r w :
  Opcode r <> OpcodeQuery ->
  exists reply w',
    newDNSHandler records aDelay aaaaDelay authority alternateRecords r w
      = (Done tt, w') /\
    written w' = written w ++ [reply] /\
    Answer reply = [] /\
    Authoritative reply = false.
Proof.
  intros Hop.
  destruct (non_query_reply records aDelay aaaaDelay authority alternateRecords
              r w Hop) as (reply & w' & Hrun & Hwr & ->).
  eexists. exists w'. split; [exact Hrun|]. split; [exact Hwr|].
  split; reflexivity.
Qed.

(** ** Direct A queries without alternation *)

(** C7. For a direct A query (no "cname." prefix) with alternation disabled,
    the answer section of the reply holds exactly the A records of the
    configured addresses that are valid (accepted by the address check and
    by the record constructor), one per address and in the configured order;
    every other entry is omitted, and when the only configured entry is
    invalid the answer section is empty. *)
Theorem C7_direct_A_answers records aDelay aaaaDelay authority r q qs w :
  Opcode r = OpcodeQuery -> Question r = q :: qs -> Qtype q = TypeA ->
  HasPrefix (Name q) "cname." = false ->
  exists reply w',
    newDNSHandler records aDelay aaaaDelay authority false r w = (Done tt, w') /\
    written w' = written w ++ [reply] /\
    Answer reply = omap (addressRecord (Name q) "A") (A records) /\
    (forall ip, A records = [ip] -> addressRecord (Name q) "A" ip = None ->
       Answer reply = []).
Proof.
  intros Hop Hq Hqt Hpre.
  destruct (handler_query records aDelay aaaaDelay authority false r q qs w
              "A" (A records) aDelay Hop Hq) as (w' & _ & _ & Hrun & Hwr).
  { rewrite Hpre, Hqt. apply selectAnswers_direct_A. }
  revert Hwr. unfold cnameRecords, ownerName. rewrite Hpre. simpl. intros Hwr.
  eexists. exists w'. split; [exact Hrun|]. split; [exact Hwr|].
  split; [reflexivity|].
  intros ip -> Hip. simpl. by rewrite Hip.
Qed.

(** ** Selection of the answer set *)

(** Without alternation, the reply to a standard query is built from the
    set the switch selects: the CNAME record, if any, then the records of
    the selected addresses, after a sleep of the selected delay. *)
Lemma reply_built_from_selected_set records aDelay aaaaDelay authority r q qs w
    queryType answers delay :
  Opcode r = OpcodeQuery -> Question r = q :: qs ->
  selectAnswers records aDelay aaaaDelay (HasPrefix (Name q) "cname.") (Qtype q)
    = (queryType, answers, delay) ->
  exists reply w',
    newDNSHandler records aDelay aaaaDelay authority false r w = (Done tt, w') /\
    written w' = written w ++ [reply] /\
    slept w' = slept w ++ [delay] /\
    Answer reply =
      cnameRecords (Name q) ++
      omap (addressRecord (ownerName (Name q)) queryType) answers.
Proof.
  intros Hop Hq Hsel.
  destruct (handler_query records aDelay aaaaDelay authority false r q qs w
              queryType answers delay Hop Hq Hsel)
    as (w' & Hsl & _ & Hrun & Hwr).
  eexists. exists w'. split; [exact Hrun|]. split; [exact Hwr|].
  split; [exact Hsl | reflexivity].
Qed.

(** C8. For a query of type A (respectively AAAA) whose name carries the
    "cname." prefix, the selected answer set is the CNAME-targeted A
    (respectively AAAA) set when that set is non-empty and the plain set
    otherwise; for a name without the prefix it is always the plain set. *)
Theorem C8_answer_set_selection records aDelay aaaaDelay name :
  let selected qtype :=
    (selectAnswers records aDelay aaaaDelay (HasPrefix name "cname.") qtype).1.2 in
  (HasPrefix name "cname." = true ->
     (CNAMEA records <> [] -> selected TypeA = CNAMEA records) /\
     (CNAMEA records = [] -> selected TypeA = A records) /\
     (CNAMEAAAA records <> [] -> selected TypeAAAA = CNAMEAAAA records) /\
     (CNAMEAAAA records = [] -> selected TypeAAAA = AAAA records)) /\
  (HasPrefix name "cname." = false ->
     selected TypeA = A records /\ selected TypeAAAA = AAAA records).
Proof.
  intros selected. subst selected. unfold selectAnswers. simpl.
  split.
  - intros ->. simpl. repeat split.
    + intros Hne. by rewrite (nonempty_length _ Hne).
    + by intros ->.
    + intros Hne. by rewrite (nonempty_length _ Hne).
    + by intros ->.
  - intros ->. split; reflexivity.
Qed.

(** ** An empty question section *)

(** The handler on a standard query without questions. *)
Lemma empty_question_run records aDelay aaaaDelay authority
    alternateRecords r w :
  Opcode r = OpcodeQuery -> Question r = [] ->
  (authority <> "" ->
     newDNSHandler records aDelay aaaaDelay authority alternateRecords r w
       = (Panicked (IndexOutOfRange 0 0), w)) /\
  (authority = "" ->
     exists reply,
       newDNSHandler records aDelay aaaaDelay authority alternateRecords r w
         = (Done tt, mkWorld (choiceMap w) (written w ++ [reply]) (slept w) (logged w)) /\
       Answer reply = [] /\ Ns reply = [] /\ Question reply = []).
Proof.
  intros Hop Hq. unfold newDNSHandler. rewrite Hop, Z.eqb_refl. cbn [negb].
  replace (Question (setCompress (SetReply newMsg r) false)) with (@nil dnsQuestion)
    by (simpl; by rewrite Hq).
  cbn [forRange]. rewrite bind_ret_l. unfold finishReply.
  split.
  - intros Hauth. rewrite (nonempty_string_length _ Hauth).
    unfold bind, index. simpl. rewrite Hq. reflexivity.
  - intros ->. simpl. unfold bind, ret, WriteMsg, logPrintf. simpl.
    eexists. split; [reflexivity|]. split; [reflexivity|]. split; [reflexivity|].
    simpl. by rewrite Hq.
Qed.

(** C9. On a standard query whose question section is empty, the question
    loop runs zero times; with a non-empty authority hostname the handler
    then indexes the first element of the empty question list and panics
    with an index out of range, writing no reply, while with no authority
    configured it replies with an empty answer section. *)
Theorem C9_empty_question_section records aDelay aaaaDelay authority
    alternateRecords r w :
  Opcode r = OpcodeQuery -> Question r = [] ->
  (authority <> "" ->
     newDNSHandler records aDelay aaaaDelay authority alternateRecords r w
       = (Panicked (IndexOutOfRange 0 0), w)) /\
  (authority = "" ->
     exists reply,
       newDNSHandler records aDelay aaaaDelay authority alternateRecords r w
         = (Done tt, mkWorld (choiceMap w) (written w ++ [reply]) (slept w) (logged w)) /\
       Answer reply = [] /\ Ns reply = [] /\ Question reply = []).
Proof.
  intros Hop Hq.
  exact (empty_question_run records aDelay aaaaDelay authority
           alternateRecords r w Hop Hq).
Qed.
(** ** When the handler does reply *)

(** Without alternation the handler replies to every message that is not a
    standard query with an empty question section and a configured
    authority. *)
Lemma handler_replies_without_alternation records aDelay aaaaDelay authority r w :
  Opcode r <> OpcodeQuery \/ Question r <> [] \/ authority = "" ->
  exists reply w',
    newDNSHandler records aDelay aaaaDelay authority false r w = (Done tt, w') /\
    written w' = written w ++ [reply].
Proof.
  intros Hcase.
  destruct (decide (Opcode r = OpcodeQuery)) as [Hop|Hop].
  - destruct (Question r) as [|q qs] eqn:Hq.
    + destruct Hcase as [? | [? | ->]]; [done | done |].
      destruct (empty_question_run records aDelay aaaaDelay "" false r w Hop Hq)
        as [_ Hreply].
      destruct (Hreply eq_refl) as (reply & Hrun & _).
      eexists. eexists. split; [exact Hrun|]. reflexivity.
    + destruct (selectAnswers records aDelay aaaaDelay
                  (HasPrefix (Name q) "cname.") (Qtype q))
        as [[queryType answers] delay] eqn:Hsel.
      destruct (handler_query records aDelay aaaaDelay authority false
                  r q qs w queryType answers delay Hop Hq Hsel)
        as (w' & _ & _ & Hrun & Hwr).
      eexists. exists w'. split; [exact Hrun | exact Hwr].
  - destruct (non_query_reply records aDelay aaaaDelay authority false r w Hop)
      as (reply & w' & Hrun & Hwr & _).
    exists reply, w'. split; assumption.
Qed.

(** ** The complete run of the handler on a standard query *)

(** Lines 33-86 with the world they leave: one sleep, the log lines of the
    pass, and neither [choiceMap] nor the transport touched. *)
Lemma serveQuestion_run records aDelay aaaaDelay alternateRecords q m w
    queryType answers delay :
  selectAnswers records aDelay aaaaDelay (HasPrefix (Name q) "cname.") (Qtype q)
    = (queryType, answers, delay) ->
  serveQuestion records aDelay aaaaDelay alternateRecords q m w =
  let built := setAnswer m (Answer m ++ cnameRecords (Name q) ++
                 omap (addressRecord (ownerName (Name q)) queryType) answers) in
  let w1 := mkWorld (choiceMap w) (written w) (slept w ++ [delay])
              (logged w ++ queryLog (Name q) queryType delay answers) in
  if alternateRecords && (0 <? Z.of_nat (length answers))
  then alternate (Name q) built w1
  else (Done built, w1).
Proof.
  intros Hsel. unfold serveQuestion. rewrite Hsel.
  unfold cnameRecords, ownerName, queryLog, cnameLog.
  set (text := Name q +:+ " CNAME " +:+ TrimPrefix (Name q) "cname.").
  set (d := if HasPrefix (Name q) "cname."
            then TrimPrefix (Name q) "cname." else Name q).
  set (m1 := setAnswer m (Answer m ++
               (if HasPrefix (Name q) "cname."
                then match NewRR text with Some rr => [rr] | None => [] end
                else []))).
  set (ls := if HasPrefix (Name q) "cname."
             then [LogCNAME (Name q) (TrimPrefix (Name q) "cname.")] else []).
  assert (Hcname :
    (if HasPrefix (Name q) "cname."
     then bind (logPrintf (LogCNAME (Name q) (TrimPrefix (Name q) "cname.")))
            (fun _ => match NewRR text with
                      | Some rr => ret (setAnswer m (Answer m ++ [rr]))
                      | None => ret m
                      end)
     else ret m) w = (Done m1, addLogged w ls)).
  { subst m1 ls. destruct (HasPrefix (Name q) "cname.").
    - unfold bind, logPrintf, ret, addLogged. simpl.
      destruct (NewRR text); [reflexivity|].
      by rewrite app_nil_r, setAnswer_id.
    - unfold ret. by rewrite app_nil_r, setAnswer_id, addLogged_nil. }
  rewrite (bind_done _ _ _ _ _ Hcname).
  unfold bind at 1, logPrintf at 1. unfold bind at 1, Sleep at 1. simpl.
  destruct (0 <? Z.of_nat (length answers)) eqn:Hlen.
  - rewrite (bind_done _ _ _ _ _ (forRange_appendAddress d queryType answers m1 _)).
    subst m1. unfold addLogged. simpl. rewrite <- !app_assoc.
    rewrite andb_true_r. destruct alternateRecords; reflexivity.
  - rewrite andb_false_r.
    assert (answers = []) as ->.
    { apply Z.ltb_ge in Hlen. destruct answers; [done | simpl length in Hlen; lia]. }
    subst m1. simpl. rewrite !app_nil_r, <- app_assoc. reflexivity.
Qed.

(** Lines 97-109 with the world they leave. *)
Lemma finishReply_run authority m q qs w :
  Question m = q :: qs ->
  finishReply authority m w =
  (Done tt,
   mkWorld (choiceMap w)
     (written w ++
      [setAuthoritative (setNs m (Ns m ++ nsRecords (Name q) authority)) true])
     (slept w) (logged w ++ map LogResponding (Answer m))).
Proof.
  intros Hm. unfold finishReply, nsRecords, bind, index, ret. rewrite Hm.
  destruct (0 <? Z.of_nat (String.length authority)); simpl;
    [destruct (NewRR (Name q +:+ " NS " +:+ authority)) as [rr|]|];
    rewrite forRange_logResponding; unfold WriteMsg, addLogged; simpl;
    try reflexivity; destruct m; simpl; by rewrite app_nil_r.
Qed.

(** The whole handler on a standard query with a first question [q], as one
    equation: the outcome and every component of the world it leaves. *)
Lemma handler_run records aDelay aaaaDelay authority alternateRecords r q qs w
    queryType answers delay :
  Opcode r = OpcodeQuery ->
  Question r = q :: qs ->
  selectAnswers records aDelay aaaaDelay (HasPrefix (Name q) "cname.") (Qtype q)
    = (queryType, answers, delay) ->
  let built := cnameRecords (Name q) ++
               omap (addressRecord (ownerName (Name q)) queryType) answers in
  let ns := nsRecords (Name q) authority in
  let c := nextChoice w (Name q) in
  let ls := logged w ++ queryLog (Name q) queryType delay answers in
  newDNSHandler records aDelay aaaaDelay authority alternateRecords r w =
  if alternateRecords && (0 <? Z.of_nat (length answers)) then
    match at_index built (Z.rem c 2) with
    | Some rr =>
        (Done tt,
         mkWorld (<[Name q := c]> (choiceMap w))
           (written w ++ [replyWith r [rr] ns]) (slept w ++ [delay])
           (ls ++ [LogResponding rr]))
    | None =>
        (Panicked (IndexOutOfRange (Z.rem c 2) (Z.of_nat (length built))),
         mkWorld (<[Name q := c]> (choiceMap w))
           (written w) (slept w ++ [delay]) ls)
    end
  else
    (Done tt,
     mkWorld (choiceMap w) (written w ++ [replyWith r built ns])
       (slept w ++ [delay]) (ls ++ map LogResponding built)).
Proof.
  intros Hop Hq Hsel built ns c ls.
  assert (Hrun :
    newDNSHandler records aDelay aaaaDelay authority alternateRecords r w =
    bind (serveQuestion records aDelay aaaaDelay alternateRecords q
            (setCompress (SetReply newMsg r) false))
         (finishReply authority) w).
  { unfold newDNSHandler. rewrite Hop, Z.eqb_refl. cbn [negb].
    replace (Question (setCompress (SetReply newMsg r) false)) with [q]
      by (simpl; by rewrite Hq).
    cbn [forRange]. unfold bind.
    destruct (serveQuestion _ _ _ _ _ _ _) as [[m|p] w2]; reflexivity. }
  rewrite Hrun. clear Hrun. unfold bind.
  rewrite (serveQuestion_run _ _ _ _ _ _ _ _ _ _ Hsel).
  cbn [Answer setCompress SetReply newMsg app]. cbv zeta. fold built. fold ls.
  destruct (alternateRecords && (0 <? Z.of_nat (length answers))).
  - rewrite alternate_spec. cbn [Answer setAnswer choiceMap written slept logged].
    unfold nextChoice. cbn [choiceMap]. fold (nextChoice w (Name q)). fold c.
    destruct (at_index built (Z.rem c 2)) as [rr|]; [|reflexivity].
    rewrite setAnswer_twice.
    rewrite (finishReply_run authority _ q []) by (simpl; by rewrite Hq).
    reflexivity.
  - rewrite (finishReply_run authority _ q []) by (simpl; by rewrite Hq).
    reflexivity.
Qed.

(** The short cut of lines 26-30 with the world it leaves. *)
Lemma non_query_run records aDelay aaaaDelay authority alternateRecords r w :
  Opcode r <> OpcodeQuery ->
  newDNSHandler records aDelay aaaaDelay authority alternateRecords r w =
  (Done tt,
   mkWorld (choiceMap w) (written w ++ [setCompress (SetReply newMsg r) false])
     (slept w) (logged w ++ [LogNonQuery r])).
Proof.
  intros Hop. unfold newDNSHandler.
  apply Z.eqb_neq in Hop. rewrite Hop. reflexivity.
Qed.

(** A standard query without questions and without authority. *)
Lemma no_question_run records aDelay aaaaDelay alternateRecords r w :
  Opcode r = OpcodeQuery -> Question r = [] ->
  newDNSHandler records aDelay aaaaDelay "" alternateRecords r w =
  (Done tt,
   mkWorld (choiceMap w) (written w ++ [replyWith r [] []]) (slept w) (logged w)).
Proof.
  intros Hop Hq. unfold newDNSHandler. rewrite Hop, Z.eqb_refl. cbn [negb].
  replace (Question (setCompress (SetReply newMsg r) false)) with (@nil dnsQuestion)
    by (simpl; by rewrite Hq).
  reflexivity.
Qed.

Lemma selectAnswers_delay records aDelay aaaaDelay cname qtype :
  (selectAnswers records aDelay aaaaDelay cname qtype).2
  = delayFor aDelay aaaaDelay qtype.
Proof.
  unfold selectAnswers, delayFor.
  destruct (qtype =? TypeA); [by destruct (_ && _)|].
  destruct (qtype =? TypeAAAA); [by destruct (_ && _)|]. reflexivity.
Qed.

Lemma snoc_inv_self {T} (xs : list T) (x : T) : xs = xs ++ [x] -> False.
Proof.
  intros H. apply (f_equal length) in H. rewrite length_app in H.
  simpl in H. lia.
Qed.

(** ** Flags of the reply *)

(** X1. Whatever the request and the configuration, a message the handler
    passes to the response writer has compression disabled, and it is marked
    authoritative exactly when the request is a standard query. *)
Theorem X1_reply_flags records aDelay aaaaDelay authority alternateRecords r w
    reply :
  written (newDNSHandler records aDelay aaaaDelay authority alternateRecords r w).2
    = written w ++ [reply] ->
  Compress reply = false /\
  Authoritative reply = (Opcode r =? OpcodeQuery).
Proof.
  intros Hwr.
  destruct (decide (Opcode r = OpcodeQuery)) as [Hop|Hop].
  - rewrite Hop, Z.eqb_refl.
    destruct (Question r) as [|q qs] eqn:Hq.
    + destruct (decide (authority = "")) as [->|Hauth].
      * rewrite (no_question_run _ _ _ _ _ _ Hop Hq) in Hwr. simpl in Hwr.
        apply app_inv_head in Hwr. injection Hwr as <-. split; reflexivity.
      * destruct (empty_question_run records aDelay aaaaDelay authority
                    alternateRecords r w Hop Hq) as [Hpanic _].
        rewrite (Hpanic Hauth) in Hwr. simpl in Hwr.
        destruct (snoc_inv_self _ _ Hwr).
    + destruct (selectAnswers records aDelay aaaaDelay
                  (HasPrefix (Name q) "cname.") (Qtype q))
        as [[queryType answers] delay] eqn:Hsel.
      rewrite (handler_run _ _ _ authority alternateRecords _ _ _ w _ _ _
                 Hop Hq Hsel) in Hwr.
      cbv zeta in Hwr.
      destruct (alternateRecords && (0 <? Z.of_nat (length answers)));
        [destruct (at_index _ _)|]; simpl in Hwr.
      * apply app_inv_head in Hwr. injection Hwr as <-. split; reflexivity.
      * destruct (snoc_inv_self _ _ Hwr).
      * apply app_inv_head in Hwr. injection Hwr as <-. split; reflexivity.
  - rewrite (non_query_run _ _ _ _ _ _ _ Hop) in Hwr. simpl in Hwr.
    apply app_inv_head in Hwr. injection Hwr as <-.
    apply Z.eqb_neq in Hop. rewrite Hop. split; reflexivity.
Qed.

(** ** The delay *)

(** X2. The handler sleeps exactly once on a standard query with a first
    question, for the A delay on type A, the AAAA delay on type AAAA and zero
    on any other type, whatever the name, the answer sets and the outcome
    (the sleep is also taken by a run that panics afterwards); it does not
    sleep on a non-query message or on an empty question section. *)
Theorem X2_sleep_by_type records aDelay aaaaDelay authority alternateRecords r w :
  slept (newDNSHandler records aDelay aaaaDelay authority alternateRecords r w).2
  = slept w ++
    (if Opcode r =? OpcodeQuery then
       match Question r with
       | q :: _ => [delayFor aDelay aaaaDelay (Qtype q)]
       | [] => []
       end
     else []).
Proof.
  destruct (decide (Opcode r = OpcodeQuery)) as [Hop|Hop].
  - rewrite Hop, Z.eqb_refl.
    destruct (Question r) as [|q qs] eqn:Hq.
    + rewrite app_nil_r.
      destruct (decide (authority = "")) as [->|Hauth].
      * by rewrite (no_question_run _ _ _ _ _ _ Hop Hq).
      * destruct (empty_question_run records aDelay aaaaDelay authority
                    alternateRecords r w Hop Hq) as [Hpanic _].
        by rewrite (Hpanic Hauth).
    + destruct (selectAnswers records aDelay aaaaDelay
                  (HasPrefix (Name q) "cname.") (Qtype q))
        as [[queryType answers] delay] eqn:Hsel.
      rewrite (handler_run _ _ _ authority alternateRecords _ _ _ w _ _ _
                 Hop Hq Hsel).
      cbv zeta.
      rewrite <- (selectAnswers_delay records aDelay aaaaDelay
                    (HasPrefix (Name q) "cname.") (Qtype q)), Hsel.
      destruct (alternateRecords && (0 <? Z.of_nat (length answers)));
        [destruct (at_index _ _)|]; reflexivity.
  - rewrite (non_query_run _ _ _ _ _ _ _ Hop). simpl.
    apply Z.eqb_neq in Hop. rewrite Hop. by rewrite app_nil_r.
Qed.

(** ** Query types other than A and AAAA *)

(** X3. A standard query whose type is neither A nor AAAA is answered, with
    or without alternation, by a reply whose answer section holds the CNAME
    record of a "cname." name (when it can be built) and nothing else; the
    run sleeps for zero, logs an empty query type, and leaves every counter
    as it was. *)
Theorem X3_other_query_types records aDelay aaaaDelay authority alternateRecords
    r q qs w :
  Opcode r = OpcodeQuery -> Question r = q :: qs ->
  Qtype q <> TypeA -> Qtype q <> TypeAAAA ->
  exists reply,
    newDNSHandler records aDelay aaaaDelay authority alternateRecords r w =
    (Done tt,
     mkWorld (choiceMap w) (written w ++ [reply]) (slept w ++ [0])
       (logged w ++ cnameLog (Name q) ++ [LogQuery "" (Name q) 0] ++
        map LogResponding (cnameRecords (Name q)))) /\
    Answer reply = cnameRecords (Name q) /\
    Ns reply = nsRecords (Name q) authority.
Proof.
  intros Hop Hq HA HAAAA.
  assert (Hsel : selectAnswers records aDelay aaaaDelay
                   (HasPrefix (Name q) "cname.") (Qtype q) = ("", [], 0)).
  { unfold selectAnswers. apply Z.eqb_neq in HA, HAAAA. by rewrite HA, HAAAA. }
  rewrite (handler_run _ _ _ authority alternateRecords _ _ _ w _ _ _
             Hop Hq Hsel).
  cbv zeta. rewrite andb_false_r. unfold queryLog. simpl.
  rewrite !app_nil_r, <- !app_assoc. simpl.
  eexists. split; [reflexivity|]. split; reflexivity.
Qed.

(** ** An empty selected set *)

(** X4. When the answer set selected for the question is empty, the
    alternation flag makes no difference: the run with alternation enabled is
    the run with alternation disabled, so no counter is created and no index
    is evaluated. *)
Theorem X4_empty_set_ignores_alternation records aDelay aaaaDelay authority
    r q qs w :
  Opcode r = OpcodeQuery -> Question r = q :: qs ->
  (selectAnswers records aDelay aaaaDelay
     (HasPrefix (Name q) "cname.") (Qtype q)).1.2 = [] ->
  newDNSHandler records aDelay aaaaDelay authority true r w
  = newDNSHandler records aDelay aaaaDelay authority false r w.
Proof.
  intros Hop Hq Hnil.
  destruct (selectAnswers records aDelay aaaaDelay
              (HasPrefix (Name q) "cname.") (Qtype q))
    as [[queryType answers] delay] eqn:Hsel.
  simpl in Hnil. subst answers.
  rewrite (handler_run _ _ _ authority true _ _ _ w _ _ _ Hop Hq Hsel).
  rewrite (handler_run _ _ _ authority false _ _ _ w _ _ _ Hop Hq Hsel).
  reflexivity.
Qed.

(** ** The counters *)

(** X5. The handler never removes a counter and never changes the counter of
    a name other than the first question's; with alternation disabled it
    leaves [choiceMap] as it was. *)
Theorem X5_counters_frame records aDelay aaaaDelay authority alternateRecords r w :
  (alternateRecords = false ->
     choiceMap (newDNSHandler records aDelay aaaaDelay authority
                  alternateRecords r w).2 = choiceMap w) /\
  (forall k, head (Name <$> Question r) <> Some k ->
     choiceMap (newDNSHandler records aDelay aaaaDelay authority
                  alternateRecords r w).2 !! k = choiceMap w !! k) /\
  (forall k, is_Some (choiceMap w !! k) ->
     is_Some (choiceMap (newDNSHandler records aDelay aaaaDelay authority
                           alternateRecords r w).2 !! k)).
Proof.
  destruct (decide (Opcode r = OpcodeQuery)) as [Hop|Hop].
  - destruct (Question r) as [|q qs] eqn:Hq.
    + assert (Hsame : choiceMap (newDNSHandler records aDelay aaaaDelay authority
                                   alternateRecords r w).2 = choiceMap w).
      { destruct (decide (authority = "")) as [->|Hauth].
        - by rewrite (no_question_run _ _ _ _ _ _ Hop Hq).
        - destruct (empty_question_run records aDelay aaaaDelay authority
                      alternateRecords r w Hop Hq) as [Hpanic _].
          by rewrite (Hpanic Hauth). }
      rewrite Hsame. by repeat split.
    + destruct (selectAnswers records aDelay aaaaDelay
                  (HasPrefix (Name q) "cname.") (Qtype q))
        as [[queryType answers] delay] eqn:Hsel.
      rewrite (handler_run _ _ _ authority alternateRecords _ _ _ w _ _ _
                 Hop Hq Hsel).
      cbv zeta.
      destruct (alternateRecords && (0 <? Z.of_nat (length answers))) eqn:Halt.
      * destruct (at_index _ _); simpl; (split; [|split]).
        all: try (intros ->; discriminate).
        all: try (intros k Hk; apply lookup_insert_ne; simpl in Hk; congruence).
        all: intros k [v Hv]; destruct (decide (Name q = k)) as [->|Hne];
          [rewrite lookup_insert_eq; eauto | rewrite lookup_insert_ne by done; eauto].
      * simpl. by repeat split.
  - rewrite (non_query_run _ _ _ _ _ _ _ Hop). simpl. by repeat split.
Qed.

(** ** Alternation in general *)

(** The incremented counter and the index it selects, while the counter is
    far from the wrap. *)
Lemma nextChoice_parity w name :
  0 <= default 0 (choiceMap w !! name) < 2 ^ 63 - 1 ->
  nextChoice w name = default 0 (choiceMap w !! name) + 1 /\
  Z.rem (nextChoice w name) 2
  = if Z.odd (default 0 (choiceMap w !! name) + 1) then 1 else 0.
Proof.
  intros Hc. unfold nextChoice. rewrite wrapInt_small by lia.
  split; [reflexivity|]. rewrite rem2_parity by lia.
  rewrite <- Z.negb_even. by destruct (Z.even _).
Qed.

(** X6. With alternation enabled, a direct A query for which exactly one
    record is built (one valid entry among the configured ones) stores the
    incremented counter of the name and then depends on its parity: on an
    odd counter the handler panics on index 1 of a list of length 1 and
    writes nothing, on an even counter it replies with that record. The
    counter is stored in both cases, so the query after a panic is
    answered. *)
Theorem X6_single_record_alternation records aDelay aaaaDelay authority
    r q qs w x :
  Opcode r = OpcodeQuery -> Question r = q :: qs -> Qtype q = TypeA ->
  HasPrefix (Name q) "cname." = false ->
  omap (addressRecord (Name q) "A") (A records) = [x] ->
  0 <= default 0 (choiceMap w !! Name q) < 2 ^ 63 - 1 ->
  choiceMap (newDNSHandler records aDelay aaaaDelay authority true r w).2
    !! Name q = Some (default 0 (choiceMap w !! Name q) + 1) /\
  (Z.odd (default 0 (choiceMap w !! Name q) + 1) = true ->
     (newDNSHandler records aDelay aaaaDelay authority true r w).1
       = Panicked (IndexOutOfRange 1 1) /\
     written (newDNSHandler records aDelay aaaaDelay authority true r w).2
       = written w) /\
  (Z.odd (default 0 (choiceMap w !! Name q) + 1) = false ->
     (newDNSHandler records aDelay aaaaDelay authority true r w).1 = Done tt /\
     exists reply,
       written (newDNSHandler records aDelay aaaaDelay authority true r w).2
         = written w ++ [reply] /\
       Answer reply = [x]).
Proof.
  intros Hop Hq Hqt Hpre Hone Hc.
  assert (Hsel : selectAnswers records aDelay aaaaDelay
                   (HasPrefix (Name q) "cname.") (Qtype q)
                 = ("A", A records, aDelay)).
  { rewrite Hpre, Hqt. apply selectAnswers_direct_A. }
  assert (Hne : A records <> []) by (intros Hnil; by rewrite Hnil in Hone).
  rewrite (handler_run _ _ _ authority true _ _ _ w _ _ _ Hop Hq Hsel).
  cbv zeta. rewrite (nonempty_length _ Hne). cbn [andb].
  unfold cnameRecords, ownerName. rewrite Hpre. cbn [app]. rewrite Hone.
  destruct (nextChoice_parity w (Name q) Hc) as [-> ->].
  destruct (Z.odd (default 0 (choiceMap w !! Name q) + 1)); simpl.
  - split; [apply lookup_insert_eq|]. split; [by intros _ | discriminate].
  - split; [apply lookup_insert_eq|]. split; [discriminate|].
    intros _. split; [reflexivity|]. eexists. split; reflexivity.
Qed.

(** X7. With alternation enabled, a direct A query for which two or more
    records are built never panics while the counter is in range: the reply
    holds exactly one record, the second built record on an odd incremented
    counter and the first on an even one. Records built from a third or
    later valid address are never served. *)
Theorem X7_only_first_two_served records aDelay aaaaDelay authority
    r q qs w x0 x1 rest :
  Opcode r = OpcodeQuery -> Question r = q :: qs -> Qtype q = TypeA ->
  HasPrefix (Name q) "cname." = false ->
  omap (addressRecord (Name q) "A") (A records) = x0 :: x1 :: rest ->
  0 <= default 0 (choiceMap w !! Name q) < 2 ^ 63 - 1 ->
  exists reply,
    (newDNSHandler records aDelay aaaaDelay authority true r w).1 = Done tt /\
    written (newDNSHandler records aDelay aaaaDelay authority true r w).2
      = written w ++ [reply] /\
    Answer reply
      = [if Z.odd (default 0 (choiceMap w !! Name q) + 1) then x1 else x0] /\
    choiceMap (newDNSHandler records aDelay aaaaDelay authority true r w).2
      !! Name q = Some (default 0 (choiceMap w !! Name q) + 1).
Proof.
  intros Hop Hq Hqt Hpre Hbuilt Hc.
  assert (Hsel : selectAnswers records aDelay aaaaDelay
                   (HasPrefix (Name q) "cname.") (Qtype q)
                 = ("A", A records, aDelay)).
  { rewrite Hpre, Hqt. apply selectAnswers_direct_A. }
  assert (Hne : A records <> []) by (intros Hnil; by rewrite Hnil in Hbuilt).
  rewrite (handler_run _ _ _ authority true _ _ _ w _ _ _ Hop Hq Hsel).
  cbv zeta. rewrite (nonempty_length _ Hne). cbn [andb].
  unfold cnameRecords, ownerName. rewrite Hpre. cbn [app]. rewrite Hbuilt.
  destruct (nextChoice_parity w (Name q) Hc) as [-> ->].
  destruct (Z.odd (default 0 (choiceMap w !! Name q) + 1)); simpl;
    (eexists; split; [reflexivity|]; split; [reflexivity|];
     split; [reflexivity | apply lookup_insert_eq]).
Qed.

(** X8. With alternation enabled, an A query for a "cname." name whose CNAME
    record is built and whose selected set gives at least one address record
    alternates between the two: the reply holds only the first address
    record on an odd incremented counter and only the CNAME record on an
    even one. The counter is kept under the full queried name, prefix
    included. *)
Theorem X8_cname_alternation records aDelay aaaaDelay authority
    r q qs w rrc y rest :
  Opcode r = OpcodeQuery -> Question r = q :: qs -> Qtype q = TypeA ->
  HasPrefix (Name q) "cname." = true ->
  NewRR (Name q +:+ " CNAME " +:+ TrimPrefix (Name q) "cname.") = Some rrc ->
  omap (addressRecord (TrimPrefix (Name q) "cname.") "A")
    (if 0 <? Z.of_nat (length (CNAMEA records)) then CNAMEA records
     else A records) = y :: rest ->
  0 <= default 0 (choiceMap w !! Name q) < 2 ^ 63 - 1 ->
  exists reply,
    (newDNSHandler records aDelay aaaaDelay authority true r w).1 = Done tt /\
    written (newDNSHandler records aDelay aaaaDelay authority true r w).2
      = written w ++ [reply] /\
    Answer reply
      = [if Z.odd (default 0 (choiceMap w !! Name q) + 1) then y else rrc] /\
    choiceMap (newDNSHandler records aDelay aaaaDelay authority true r w).2
      !! Name q = Some (default 0 (choiceMap w !! Name q) + 1).
Proof.
  intros Hop Hq Hqt Hpre Hrrc Hbuilt Hc.
  assert (Hsel : selectAnswers records aDelay aaaaDelay
                   (HasPrefix (Name q) "cname.") (Qtype q)
                 = ("A",
                    if 0 <? Z.of_nat (length (CNAMEA records))
                    then CNAMEA records else A records, aDelay)).
  { rewrite Hpre, Hqt. unfold selectAnswers. simpl.
    by destruct (0 <? Z.of_nat (length (CNAMEA records))). }
  assert (Hne : (if 0 <? Z.of_nat (length (CNAMEA records))
                 then CNAMEA records else A records) <> [])
    by (intros Hnil; by rewrite Hnil in Hbuilt).
  rewrite (handler_run _ _ _ authority true _ _ _ w _ _ _ Hop Hq Hsel).
  cbv zeta. rewrite (nonempty_length _ Hne). cbn [andb].
  unfold cnameRecords, ownerName. rewrite Hpre, Hrrc. cbn [app]. rewrite Hbuilt.
  destruct (nextChoice_parity w (Name q) Hc) as [-> ->].
  destruct (Z.odd (default 0 (choiceMap w !! Name q) + 1)); simpl;
    (eexists; split; [reflexivity|]; split; [reflexivity|];
     split; [reflexivity | apply lookup_insert_eq]).
Qed.

(** ** Answers without alternation *)

(** X9. Without alternation, an A (respectively AAAA) query for a "cname."
    name is answered with the CNAME record, when it can be built, followed
    by the records of the valid addresses of the CNAME-targeted set, or of
    the plain set when the targeted set is empty; these address records are
    built for the name with the prefix stripped, the target of the CNAME. *)
Theorem X9_cname_query_answers records aDelay aaaaDelay authority r q qs w :
  Opcode r = OpcodeQuery -> Question r = q :: qs ->
  HasPrefix (Name q) "cname." = true ->
  exists reply,
    (newDNSHandler records aDelay aaaaDelay authority false r w).1 = Done tt /\
    written (newDNSHandler records aDelay aaaaDelay authority false r w).2
      = written w ++ [reply] /\
    (Qtype q = TypeA ->
       Answer reply =
         cnameRecords (Name q) ++
         omap (addressRecord (TrimPrefix (Name q) "cname.") "A")
           (if 0 <? Z.of_nat (length (CNAMEA records)) then CNAMEA records
            else A records)) /\
    (Qtype q = TypeAAAA ->
       Answer reply =
         cnameRecords (Name q) ++
         omap (addressRecord (TrimPrefix (Name q) "cname.") "AAAA")
           (if 0 <? Z.of_nat (length (CNAMEAAAA records)) then CNAMEAAAA records
            else AAAA records)).
Proof.
  intros Hop Hq Hpre.
  destruct (selectAnswers records aDelay aaaaDelay
              (HasPrefix (Name q) "cname.") (Qtype q))
    as [[queryType answers] delay] eqn:Hsel.
  rewrite (handler_run _ _ _ authority false _ _ _ w _ _ _ Hop Hq Hsel).
  cbv zeta. cbn [andb fst snd written].
  eexists. split; [reflexivity|]. split; [reflexivity|].
  unfold replyWith. cbn [Answer setAuthoritative setNs setAnswer].
  unfold ownerName. rewrite Hpre in *.
  split; intros Hqt; rewrite Hqt in Hsel; unfold selectAnswers in Hsel;
    simpl in Hsel.
  - destruct (0 <? Z.of_nat (length (CNAMEA records)));
      injection Hsel as <- <- <-; reflexivity.
  - destruct (0 <? Z.of_nat (length (CNAMEAAAA records)));
      injection Hsel as <- <- <-; reflexivity.
Qed.


(** ** The log of the address loop *)

Lemma address_loop_accounting d queryType answers :
  (length (omap (addressRecord d queryType) answers) +
   length (failedLines d queryType answers))%nat
  = length (List.filter ParseIP answers).
Proof.
  unfold failedLines, addressRecord.
  induction answers as [|ip answers IH]; [reflexivity|].
  cbn [omap list_omap List.filter].
  destruct (ParseIP ip); [|exact IH].
  destruct (NewRR (d +:+ " " +:+ queryType +:+ " " +:+ ip));
    simpl; rewrite <- IH; lia.
Qed.

(** X11. Without alternation, the log lines of a direct A query are, in
    order: the query line, one "Failed to create RR" line for each
    configured address that passes the address check but whose record is
    rejected, and one line for each answer of the reply. An address that
    fails the address check leaves no line, and every address that passes it
    gives either an answer or a failure line. *)
Theorem X11_log_of_direct_A_query records aDelay aaaaDelay authority r q qs w :
  Opcode r = OpcodeQuery -> Question r = q :: qs -> Qtype q = TypeA ->
  HasPrefix (Name q) "cname." = false ->
  exists reply,
    written (newDNSHandler records aDelay aaaaDelay authority false r w).2
      = written w ++ [reply] /\
    logged (newDNSHandler records aDelay aaaaDelay authority false r w).2
      = logged w ++ [LogQuery "A" (Name q) aDelay] ++
        failedLines (Name q) "A" (A records) ++
        map LogResponding (Answer reply) /\
    (length (Answer reply) + length (failedLines (Name q) "A" (A records)))%nat
      = length (List.filter ParseIP (A records)).
Proof.
  intros Hop Hq Hqt Hpre.
  assert (Hsel : selectAnswers records aDelay aaaaDelay
                   (HasPrefix (Name q) "cname.") (Qtype q)
                 = ("A", A records, aDelay)).
  { rewrite Hpre, Hqt. apply selectAnswers_direct_A. }
  rewrite (handler_run _ _ _ authority false _ _ _ w _ _ _ Hop Hq Hsel).
  cbv zeta. cbn [andb fst snd written logged].
  unfold queryLog, cnameLog, cnameRecords, ownerName. rewrite Hpre. cbn [app].
  eexists. split; [reflexivity|].
  unfold replyWith. cbn [Answer setAuthoritative setNs setAnswer].
  split; [by rewrite <- !app_assoc|].
  apply address_loop_accounting.
Qed.

(** ** The prefix functions *)

Lemma HasPrefix_sliceFrom s p :
  HasPrefix s p = true -> p +:+ sliceFrom (String.length p) s = s.
Proof.
  revert s. induction p as [|c p IH]; intros s Hs; [reflexivity|].
  destruct s as [|d s]; [discriminate|]. cbn [HasPrefix] in Hs.
  destruct (Ascii.eqb c d) eqn:Hcd; [|discriminate].
  apply Ascii.eqb_eq in Hcd. subst d.
  change (String c (p +:+ sliceFrom (String.length p) s) = String c s).
  f_equal. exact (IH s Hs).
Qed.

Lemma HasPrefix_append p t : HasPrefix (p +:+ t) p = true.
Proof.
  induction p as [|c p IH]; [by destruct t|].
  change (HasPrefix (String c (p +:+ t)) (String c p) = true).
  cbn [HasPrefix]. by rewrite Ascii.eqb_refl.
Qed.

Lemma sliceFrom_append p t : sliceFrom (String.length p) (p +:+ t) = t.
Proof. induction p as [|c p IH]; [reflexivity | exact IH]. Qed.

(** X12. [HasPrefix] holds exactly of the strings that start with the
    prefix, and [TrimPrefix] removes one occurrence of it: putting the prefix
    back in front of the trimmed string gives the string again, trimming a
    string built from the prefix and a rest gives the rest, and a string
    without the prefix is returned unchanged. *)
Theorem X12_trim_prefix_round_trip s p :
  (HasPrefix s p = true <-> exists t, s = p +:+ t) /\
  (HasPrefix s p = true -> p +:+ TrimPrefix s p = s) /\
  (forall t, TrimPrefix (p +:+ t) p = t) /\
  (HasPrefix s p = false -> TrimPrefix s p = s).
Proof.
  split; [|split; [|split]].
  - split.
    + intros Hs. exists (sliceFrom (String.length p) s).
      symmetry. by apply HasPrefix_sliceFrom.
    + intros [t ->]. apply HasPrefix_append.
  - intros Hs. unfold TrimPrefix. rewrite Hs. by apply HasPrefix_sliceFrom.
  - intros t. unfold TrimPrefix. rewrite HasPrefix_append. apply sliceFrom_append.
  - intros Hs. unfold TrimPrefix. by rewrite Hs.
Qed.

(** ** A sequence of alternating queries *)

Lemma alternation_sequence_from records aDelay aaaaDelay authority r q qs
    a1 a2 rr1 rr2 :
  Opcode r = OpcodeQuery -> Question r = q :: qs -> Qtype q = TypeA ->
  HasPrefix (Name q) "cname." = false ->
  A records = [a1; a2] ->
  addressRecord (Name q) "A" a1 = Some rr1 ->
  addressRecord (Name q) "A" a2 = Some rr2 ->
  forall (n c : nat) w,
    default 0 (choiceMap w !! Name q) = Z.of_nat c ->
    Z.of_nat (c + n) < 2 ^ 63 ->
    exists replies w',
      forRange (replicate n r)
        (fun r' _ => newDNSHandler records aDelay aaaaDelay authority true r')
        tt w = (Done tt, w') /\
      written w' = written w ++ replies /\
      map Answer replies
        = map (fun k => [if Z.odd (Z.of_nat k) then rr2 else rr1]) (seq (S c) n) /\
      default 0 (choiceMap w' !! Name q) = Z.of_nat (c + n).
Proof.
  intros Hop Hq Hqt Hpre HA Hr1 Hr2.
  induction n as [|n IH]; intros c w Hc Hbound.
  - exists [], w. rewrite app_nil_r, Nat.add_0_r. by repeat split.
  - destruct (alternation_step records aDelay aaaaDelay authority r q qs a1 a2
                rr1 rr2 w Hop Hq Hqt Hpre HA Hr1 Hr2)
      as (reply & w1 & Hrun & Hwr & Hans & Hcm); [lia|].
    rewrite Hc in Hans, Hcm.
    destruct (IH (S c) w1) as (replies & w' & Hruns & Hwrs & Hanss & Hcms).
    { rewrite Hcm. simpl. lia. }
    { lia. }
    exists (reply :: replies), w'.
    cbn [replicate forRange]. unfold bind. rewrite Hrun, Hruns.
    split; [reflexivity|].
    split; [rewrite Hwrs, Hwr, <- app_assoc; reflexivity|].
    split.
    + cbn [map seq]. rewrite Hanss, Hans. f_equal. f_equal.
      rewrite Nat2Z.inj_succ, <- Z.add_1_r, <- Z.negb_even.
      by destruct (Z.even _).
    + rewrite Hcms. f_equal. lia.
Qed.

(** X13. With alternation enabled and exactly two valid A addresses
    configured, any number of successive A queries for a direct name with no
    counter yet are all answered, the k-th of them (counting from 1) with
    only the second address when k is odd and only the first when k is even,
    and the counter of the name ends at the number of queries. *)
Theorem X13_alternation_sequence records aDelay aaaaDelay authority r q qs
    a1 a2 rr1 rr2 n w :
  Opcode r = OpcodeQuery -> Question r = q :: qs -> Qtype q = TypeA ->
  HasPrefix (Name q) "cname." = false ->
  A records = [a1; a2] ->
  addressRecord (Name q) "A" a1 = Some rr1 ->
  addressRecord (Name q) "A" a2 = Some rr2 ->
  choiceMap w !! Name q = None ->
  Z.of_nat n < 2 ^ 63 ->
  exists replies w',
    forRange (replicate n r)
      (fun r' _ => newDNSHandler records aDelay aaaaDelay authority true r')
      tt w = (Done tt, w') /\
    written w' = written w ++ replies /\
    map Answer replies
      = map (fun k => [if Z.odd (Z.of_nat k) then rr2 else rr1]) (seq 1 n) /\
    default 0 (choiceMap w' !! Name q) = Z.of_nat n.
Proof.
  intros Hop Hq Hqt Hpre HA Hr1 Hr2 Hfresh Hn.
  apply (alternation_sequence_from records aDelay aaaaDelay authority r q qs
           a1 a2 rr1 rr2 Hop Hq Hqt Hpre HA Hr1 Hr2 n 0%nat w).
  - by rewrite Hfresh.
  - exact Hn.
Qed.

(** ** One reply, or a panic *)


End Theory.

(** ** Concrete runs *)

(** C1 of the specification fails as stated: with the two addresses
    1.1.1.1 and 2.2.2.2 configured and alternation enabled, the first query
    for a name is answered with the second address, not the first. *)
Lemma C1_first_query_gets_second_address :
  (newDNSHandler Sample.twoA 0 0 "" true
     (Sample.query "example.com." TypeA) Sample.boot).1 = Done tt /\
  map Answer
    (written (newDNSHandler Sample.twoA 0 0 "" true
                (Sample.query "example.com." TypeA) Sample.boot).2)
    = [[Sample.aRecord "example.com." "2.2.2.2"]] /\
  map Answer
    (written (newDNSHandler Sample.twoA 0 0 "" true
                (Sample.query "example.com." TypeA) Sample.boot).2)
    <> [[Sample.aRecord "example.com." "1.1.1.1"]].
Proof.
  split; [vm_compute; reflexivity|].
  split; [vm_compute; reflexivity|].
  vm_compute. discriminate.
Qed.

Lemma C1_alternation_order_witness :
  (Opcode (Sample.query "example.com." TypeA) = OpcodeQuery /\
   Question (Sample.query "example.com." TypeA)
     = [Sample.question "example.com." TypeA] /\
   Qtype (Sample.question "example.com." TypeA) = TypeA /\
   HasPrefix (Name (Sample.question "example.com." TypeA)) "cname." = false /\
   A Sample.twoA = ["1.1.1.1"; "2.2.2.2"] /\
   addressRecord (L := Ref.lib) "example.com." "A" "1.1.1.1"
     = Some (Sample.aRecord "example.com." "1.1.1.1") /\
   addressRecord (L := Ref.lib) "example.com." "A" "2.2.2.2"
     = Some (Sample.aRecord "example.com." "2.2.2.2") /\
   choiceMap Sample.boot !! "example.com." = None) /\
  exists reply1 reply2 reply3 w1 w2 w3,
    newDNSHandler Sample.twoA 0 0 "" true
      (Sample.query "example.com." TypeA) Sample.boot = (Done tt, w1) /\
    written w1 = written Sample.boot ++ [reply1] /\
    Answer reply1 = [Sample.aRecord "example.com." "2.2.2.2"] /\
    newDNSHandler Sample.twoA 0 0 "" true
      (Sample.query "example.com." TypeA) w1 = (Done tt, w2) /\
    written w2 = written w1 ++ [reply2] /\
    Answer reply2 = [Sample.aRecord "example.com." "1.1.1.1"] /\
    newDNSHandler Sample.twoA 0 0 "" true
      (Sample.query "example.com." TypeA) w2 = (Done tt, w3) /\
    written w3 = written w2 ++ [reply3] /\
    Answer reply3 = [Sample.aRecord "example.com." "2.2.2.2"].
Proof.
  assert (Hfresh : choiceMap Sample.boot !! "example.com." = None)
    by (vm_compute; reflexivity).
  split; [repeat split; try reflexivity; exact Hfresh|].
  destruct (C1_alternation_order Sample.twoA 0 0 ""
              (Sample.query "example.com." TypeA)
              (Sample.question "example.com." TypeA) [] "1.1.1.1" "2.2.2.2"
              (Sample.aRecord "example.com." "1.1.1.1")
              (Sample.aRecord "example.com." "2.2.2.2")
              eq_refl eq_refl eq_refl eq_refl eq_refl eq_refl eq_refl)
    as [_ Hcycle].
  exact (Hcycle Sample.boot Hfresh).
Defined.

Lemma C2_all_invalid_panics_witness :
  (Opcode (Sample.query "example.com." TypeA) = OpcodeQuery /\
   Question (Sample.query "example.com." TypeA)
     = [Sample.question "example.com." TypeA] /\
   Qtype (Sample.question "example.com." TypeA) = TypeA /\
   HasPrefix (Name (Sample.question "example.com." TypeA)) "cname." = false /\
   A Sample.badA <> [] /\
   Forall (fun ip => addressRecord (L := Ref.lib) "example.com." "A" ip = None)
     (A Sample.badA)) /\
  exists i w',
    newDNSHandler Sample.badA 0 0 "" true
      (Sample.query "example.com." TypeA) Sample.boot
      = (Panicked (IndexOutOfRange i 0), w') /\
    written w' = written Sample.boot.
Proof.
  assert (Hne : A Sample.badA <> []) by (vm_compute; discriminate).
  assert (Hbad : Forall (fun ip => addressRecord (L := Ref.lib) "example.com." "A" ip = None)
                   (A Sample.badA))
    by (repeat constructor).
  split; [repeat split; try reflexivity; assumption|].
  apply (C2_all_invalid_panics Sample.badA 0 0 "" (Sample.query "example.com." TypeA)
           (Sample.question "example.com." TypeA) [] Sample.boot);
    try reflexivity; assumption.
Defined.

(** C3 of the specification fails as stated: with alternation enabled and a
    single valid address configured, the first A query for a name builds one
    record and the alternation step indexes the second: the handler panics
    and nothing is passed to the response writer. *)
Theorem C3_handler_aborts_without_reply :
  (newDNSHandler Sample.oneA 0 0 "" true
     (Sample.query "example.com." TypeA) Sample.boot).1
    = Panicked (IndexOutOfRange 1 1) /\
  written (newDNSHandler Sample.oneA 0 0 "" true
             (Sample.query "example.com." TypeA) Sample.boot).2 = [].
Proof.
  split; reflexivity.
Qed.

(** C4 of the specification fails as stated: with alternation enabled, the
    first A query for "cname.example.com." keeps only the A record; the CNAME
    record that was built first is dropped from the reply. *)
Lemma C4_alternation_drops_cname :
  HasPrefix "cname.example.com." "cname." = true /\
  @NewRR Ref.lib ("cname.example.com." +:+ " CNAME " +:+
           TrimPrefix "cname.example.com." "cname.")
    = Some (Sample.cnameRecord "cname.example.com." "example.com.") /\
  (newDNSHandler Sample.oneA 0 0 "" true
     (Sample.query "cname.example.com." TypeA) Sample.boot).1 = Done tt /\
  map Answer
    (written (newDNSHandler Sample.oneA 0 0 "" true
                (Sample.query "cname.example.com." TypeA) Sample.boot).2)
    = [[Sample.aRecord "example.com." "1.2.3.4"]] /\
  map (fun reply => head (Answer reply))
    (written (newDNSHandler Sample.oneA 0 0 "" true
                (Sample.query "cname.example.com." TypeA) Sample.boot).2)
    <> [Some (Sample.cnameRecord "cname.example.com." "example.com.")].
Proof.
  split; [vm_compute; reflexivity|].
  split; [vm_compute; reflexivity|].
  split; [vm_compute; reflexivity|].
  split; [vm_compute; reflexivity|].
  vm_compute. discriminate.
Qed.

Lemma C4_leading_cname_witness :
  (Opcode (Sample.query "cname.example.com." TypeA) = OpcodeQuery /\
   Question (Sample.query "cname.example.com." TypeA)
     = [Sample.question "cname.example.com." TypeA] /\
   HasPrefix (Name (Sample.question "cname.example.com." TypeA)) "cname." = true /\
   @NewRR Ref.lib
     (Name (Sample.question "cname.example.com." TypeA) +:+ " CNAME " +:+
      TrimPrefix (Name (Sample.question "cname.example.com." TypeA)) "cname.")
     = Some (Sample.cnameRecord "cname.example.com." "example.com.") /\
   (false = false \/
    (selectAnswers Sample.withCNAME 0 0 true
       (Qtype (Sample.question "cname.example.com." TypeA))).1.2 = [])) /\
  exists reply w' rest,
    newDNSHandler Sample.withCNAME 0 0 "" false
      (Sample.query "cname.example.com." TypeA) Sample.boot = (Done tt, w') /\
    written w' = written Sample.boot ++ [reply] /\
    Answer reply = Sample.cnameRecord "cname.example.com." "example.com." :: rest.
Proof.
  split; [repeat split; try reflexivity; by left|].
  apply (C4_leading_cname Sample.withCNAME 0 0 "" false
           (Sample.query "cname.example.com." TypeA)
           (Sample.question "cname.example.com." TypeA) []
           (Sample.cnameRecord "cname.example.com." "example.com.") Sample.boot);
    try reflexivity. by left.
Defined.

(** C5 of the specification fails as stated: the reply to a message with a
    non-query opcode carries no NS record although an authority hostname is
    configured. *)
Lemma C5_non_query_reply_has_no_ns :
  (newDNSHandler Sample.oneA 0 0 "ns.example.com." false
     (Sample.update "example.com.") Sample.boot).1 = Done tt /\
  map Ns
    (written (newDNSHandler Sample.oneA 0 0 "ns.example.com." false
                (Sample.update "example.com.") Sample.boot).2)
    = [[]].
Proof.
  split; vm_compute; reflexivity.
Qed.

Lemma C5_authority_record_witness :
  ("ns.example.com." <> "" /\
   Opcode (Sample.query "example.com." TypeAAAA) = OpcodeQuery /\
   Question (Sample.query "example.com." TypeAAAA)
     = [Sample.question "example.com." TypeAAAA]) /\
  exists o w',
    newDNSHandler Sample.mixedA 0 0 "ns.example.com." true
      (Sample.query "example.com." TypeAAAA) Sample.boot = (o, w') /\
    ((o = Done tt /\
      exists reply, written w' = written Sample.boot ++ [reply] /\
        Ns reply =
          match @NewRR Ref.lib
                  (Name (Sample.question "example.com." TypeAAAA) +:+ " NS " +:+
                   "ns.example.com.") with
          | Some rr => [rr]
          | None => []
          end) \/
     (exists p, o = Panicked p /\ true = true /\ written w' = written Sample.boot)).
Proof.
  assert (Hauth : "ns.example.com." <> "") by discriminate.
  split; [repeat split; try reflexivity; assumption|].
  apply (C5_authority_record Sample.mixedA 0 0 "ns.example.com." true
           (Sample.query "example.com." TypeAAAA)
           (Sample.question "example.com." TypeAAAA) [] Sample.boot);
    try reflexivity; assumption.
Defined.

(** A standard query under the same configuration does carry the record. *)
Example authority_reply :
  map Ns
    (written (newDNSHandler Sample.oneA 0 0 "ns.example.com." false
                (Sample.query "example.com." TypeA) Sample.boot).2)
  = [[Sample.nsRecord "example.com." "ns.example.com."]].
Proof. vm_compute. reflexivity. Qed.

Lemma C6_non_query_opcode_witness :
  Opcode (Sample.update "example.com.") <> OpcodeQuery /\
  exists reply w',
    newDNSHandler Sample.twoA 0 0 "ns.example.com." true
      (Sample.update "example.com.") Sample.boot = (Done tt, w') /\
    written w' = written Sample.boot ++ [reply] /\
    Answer reply = [] /\
    Authoritative reply = false.
Proof.
  assert (Hop : Opcode (Sample.update "example.com.") <> OpcodeQuery)
    by (vm_compute; lia).
  split; [assumption|].
  apply (C6_non_query_opcode Sample.twoA 0 0 "ns.example.com." true
           (Sample.update "example.com.") Sample.boot Hop).
Defined.

Lemma C7_direct_A_answers_witness :
  (Opcode (Sample.query "example.com." TypeA) = OpcodeQuery /\
   Question (Sample.query "example.com." TypeA)
     = [Sample.question "example.com." TypeA] /\
   Qtype (Sample.question "example.com." TypeA) = TypeA /\
   HasPrefix (Name (Sample.question "example.com." TypeA)) "cname." = false) /\
  exists reply w',
    newDNSHandler Sample.mixedA 0 0 "" false
      (Sample.query "example.com." TypeA) Sample.boot = (Done tt, w') /\
    written w' = written Sample.boot ++ [reply] /\
    Answer reply =
      omap (addressRecord (L := Ref.lib)
              (Name (Sample.question "example.com." TypeA)) "A") (A Sample.mixedA) /\
    (forall ip, A Sample.mixedA = [ip] ->
       addressRecord (L := Ref.lib)
         (Name (Sample.question "example.com." TypeA)) "A" ip = None ->
       Answer reply = []).
Proof.
  split; [repeat split; reflexivity|].
  apply (C7_direct_A_answers Sample.mixedA 0 0 "" (Sample.query "example.com." TypeA)
           (Sample.question "example.com." TypeA) [] Sample.boot);
    reflexivity.
Defined.

(** The three configured entries of [Sample.mixedA] give two records: the
    invalid middle entry is omitted and the order is kept. *)
Example mixedA_answers :
  omap (addressRecord (L := Ref.lib) "example.com." "A") (A Sample.mixedA)
  = [Sample.aRecord "example.com." "1.1.1.1"; Sample.aRecord "example.com." "2.2.2.2"].
Proof. reflexivity. Qed.

Lemma C8_answer_set_selection_witness :
  (HasPrefix "cname.example.com." "cname." = true /\
   CNAMEA Sample.withCNAME <> [] /\
   CNAMEAAAA Sample.withCNAME = []) /\
  (selectAnswers Sample.withCNAME 0 0
     (HasPrefix "cname.example.com." "cname.") TypeA).1.2
    = CNAMEA Sample.withCNAME /\
  (selectAnswers Sample.withCNAME 0 0
     (HasPrefix "cname.example.com." "cname.") TypeAAAA).1.2
    = AAAA Sample.withCNAME.
Proof.
  assert (Hne : CNAMEA Sample.withCNAME <> []) by (vm_compute; discriminate).
  destruct (C8_answer_set_selection Sample.withCNAME 0 0 "cname.example.com.")
    as [Hprefixed _].
  destruct (Hprefixed eq_refl) as (Hca & _ & _ & Hplain6).
  split; [repeat split; try reflexivity; assumption|].
  split; [apply Hca; assumption | apply Hplain6; reflexivity].
Defined.

Lemma C9_empty_question_section_witness :
  (Opcode Sample.noQuestion = OpcodeQuery /\ Question Sample.noQuestion = [] /\
   "ns.example.com." <> "") /\
  newDNSHandler Sample.oneA 0 0 "ns.example.com." false Sample.noQuestion Sample.boot
    = (Panicked (IndexOutOfRange 0 0), Sample.boot).
Proof.
  assert (Hauth : "ns.example.com." <> "") by discriminate.
  split; [repeat split; try reflexivity; assumption|].
  apply (C9_empty_question_section Sample.oneA 0 0 "ns.example.com." false
           Sample.noQuestion Sample.boot); try reflexivity; assumption.
Defined.

(** ** Concrete runs of the further properties *)

Lemma X1_reply_flags_witness :
  written (newDNSHandler Sample.twoA 0 0 "" false
             (Sample.query "example.com." TypeA) Sample.boot).2
    = written Sample.boot ++
      [replyWith (Sample.query "example.com." TypeA)
         [Sample.aRecord "example.com." "1.1.1.1";
          Sample.aRecord "example.com." "2.2.2.2"] []] /\
  Compress (replyWith (Sample.query "example.com." TypeA)
              [Sample.aRecord "example.com." "1.1.1.1";
               Sample.aRecord "example.com." "2.2.2.2"] []) = false /\
  Authoritative (replyWith (Sample.query "example.com." TypeA)
                   [Sample.aRecord "example.com." "1.1.1.1";
                    Sample.aRecord "example.com." "2.2.2.2"] [])
    = (Opcode (Sample.query "example.com." TypeA) =? OpcodeQuery).
Proof.
  assert (Hwr :
    written (newDNSHandler Sample.twoA 0 0 "" false
               (Sample.query "example.com." TypeA) Sample.boot).2
    = written Sample.boot ++
      [replyWith (Sample.query "example.com." TypeA)
         [Sample.aRecord "example.com." "1.1.1.1";
          Sample.aRecord "example.com." "2.2.2.2"] []]) by reflexivity.
  split; [exact Hwr|].
  exact (X1_reply_flags Sample.twoA 0 0 "" false
           (Sample.query "example.com." TypeA) Sample.boot _ Hwr).
Defined.

Lemma X3_other_query_types_witness :
  (Opcode (Sample.query "cname.example.com." Sample.TypeTXT) = OpcodeQuery /\
   Question (Sample.query "cname.example.com." Sample.TypeTXT)
     = [Sample.question "cname.example.com." Sample.TypeTXT] /\
   Qtype (Sample.question "cname.example.com." Sample.TypeTXT) <> TypeA /\
   Qtype (Sample.question "cname.example.com." Sample.TypeTXT) <> TypeAAAA) /\
  exists reply,
    newDNSHandler Sample.withCNAME 5 7 "" true
      (Sample.query "cname.example.com." Sample.TypeTXT) Sample.boot =
    (Done tt,
     mkWorld (choiceMap Sample.boot) (written Sample.boot ++ [reply])
       (slept Sample.boot ++ [0])
       (logged Sample.boot ++
        cnameLog (Name (Sample.question "cname.example.com." Sample.TypeTXT)) ++
        [LogQuery "" (Name (Sample.question "cname.example.com." Sample.TypeTXT)) 0] ++
        map LogResponding
          (cnameRecords (Name (Sample.question "cname.example.com." Sample.TypeTXT))))) /\
    Answer reply
      = cnameRecords (Name (Sample.question "cname.example.com." Sample.TypeTXT)) /\
    Ns reply
      = nsRecords (Name (Sample.question "cname.example.com." Sample.TypeTXT)) "".
Proof.
  assert (HA : Qtype (Sample.question "cname.example.com." Sample.TypeTXT) <> TypeA)
    by (vm_compute; discriminate).
  assert (HAAAA : Qtype (Sample.question "cname.example.com." Sample.TypeTXT)
                  <> TypeAAAA) by (vm_compute; discriminate).
  split; [repeat split; try reflexivity; assumption|].
  exact (X3_other_query_types Sample.withCNAME 5 7 "" true
           (Sample.query "cname.example.com." Sample.TypeTXT)
           (Sample.question "cname.example.com." Sample.TypeTXT) [] Sample.boot
           eq_refl eq_refl HA HAAAA).
Defined.

(** The reply to that TXT query holds the CNAME record alone. *)
Example txt_query_for_cname_name :
  map Answer
    (written (newDNSHandler Sample.withCNAME 5 7 "" true
                (Sample.query "cname.example.com." Sample.TypeTXT) Sample.boot).2)
  = [[Sample.cnameRecord "cname.example.com." "example.com."]].
Proof. vm_compute. reflexivity. Qed.

Lemma X4_empty_set_ignores_alternation_witness :
  (Opcode (Sample.query "example.com." TypeAAAA) = OpcodeQuery /\
   Question (Sample.query "example.com." TypeAAAA)
     = [Sample.question "example.com." TypeAAAA] /\
   (selectAnswers Sample.oneA 0 0
      (HasPrefix (Name (Sample.question "example.com." TypeAAAA)) "cname.")
      (Qtype (Sample.question "example.com." TypeAAAA))).1.2 = []) /\
  newDNSHandler Sample.oneA 0 0 "" true
    (Sample.query "example.com." TypeAAAA) Sample.boot
  = newDNSHandler Sample.oneA 0 0 "" false
      (Sample.query "example.com." TypeAAAA) Sample.boot.
Proof.
  split; [repeat split; reflexivity|].
  exact (X4_empty_set_ignores_alternation Sample.oneA 0 0 ""
           (Sample.query "example.com." TypeAAAA)
           (Sample.question "example.com." TypeAAAA) [] Sample.boot
           eq_refl eq_refl eq_refl).
Defined.

Lemma X5_counters_frame_witness :
  head (Name <$> Question (Sample.query "example.com." TypeA))
    <> Some "other.example.com." /\
  choiceMap (newDNSHandler Sample.twoA 0 0 "" true
               (Sample.query "example.com." TypeA) Sample.boot).2
    !! "other.example.com."
  = choiceMap Sample.boot !! "other.example.com.".
Proof.
  assert (Hk : head (Name <$> Question (Sample.query "example.com." TypeA))
               <> Some "other.example.com.") by (vm_compute; discriminate).
  split; [exact Hk|].
  destruct (X5_counters_frame Sample.twoA 0 0 "" true
              (Sample.query "example.com." TypeA) Sample.boot)
    as (_ & Hframe & _).
  exact (Hframe "other.example.com." Hk).
Defined.

Lemma X6_single_record_alternation_witness :
  (Opcode (Sample.query "example.com." TypeA) = OpcodeQuery /\
   Question (Sample.query "example.com." TypeA)
     = [Sample.question "example.com." TypeA] /\
   Qtype (Sample.question "example.com." TypeA) = TypeA /\
   HasPrefix (Name (Sample.question "example.com." TypeA)) "cname." = false /\
   omap (addressRecord (L := Ref.lib) "example.com." "A") (A Sample.oneA)
     = [Sample.aRecord "example.com." "1.2.3.4"] /\
   0 <= default 0 (choiceMap Sample.boot !! "example.com.") < 2 ^ 63 - 1 /\
   Z.odd (default 0 (choiceMap Sample.boot !! "example.com.") + 1) = true) /\
  (newDNSHandler Sample.oneA 0 0 "" true
     (Sample.query "example.com." TypeA) Sample.boot).1
    = Panicked (IndexOutOfRange 1 1) /\
  written (newDNSHandler Sample.oneA 0 0 "" true
             (Sample.query "example.com." TypeA) Sample.boot).2
    = written Sample.boot.
Proof.
  assert (Hc : 0 <= default 0 (choiceMap Sample.boot !! "example.com.")
               < 2 ^ 63 - 1) by (vm_compute; split; [discriminate | reflexivity]).
  assert (Hodd : Z.odd (default 0 (choiceMap Sample.boot !! "example.com.") + 1)
                 = true) by (vm_compute; reflexivity).
  split; [repeat split; try reflexivity; try assumption; apply Hc|].
  destruct (X6_single_record_alternation Sample.oneA 0 0 ""
              (Sample.query "example.com." TypeA)
              (Sample.question "example.com." TypeA) [] Sample.boot
              (Sample.aRecord "example.com." "1.2.3.4")
              eq_refl eq_refl eq_refl eq_refl eq_refl Hc)
    as (_ & Hpanic & _).
  exact (Hpanic Hodd).
Defined.

Lemma X7_only_first_two_served_witness :
  (Opcode (Sample.query "example.com." TypeA) = OpcodeQuery /\
   Question (Sample.query "example.com." TypeA)
     = [Sample.question "example.com." TypeA] /\
   Qtype (Sample.question "example.com." TypeA) = TypeA /\
   HasPrefix (Name (Sample.question "example.com." TypeA)) "cname." = false /\
   omap (addressRecord (L := Ref.lib) "example.com." "A") (A Sample.threeA)
     = Sample.aRecord "example.com." "1.1.1.1"
       :: Sample.aRecord "example.com." "2.2.2.2"
       :: [Sample.aRecord "example.com." "3.3.3.3"] /\
   0 <= default 0 (choiceMap Sample.boot !! "example.com.") < 2 ^ 63 - 1) /\
  exists reply,
    (newDNSHandler Sample.threeA 0 0 "" true
       (Sample.query "example.com." TypeA) Sample.boot).1 = Done tt /\
    written (newDNSHandler Sample.threeA 0 0 "" true
               (Sample.query "example.com." TypeA) Sample.boot).2
      = written Sample.boot ++ [reply] /\
    Answer reply
      = [if Z.odd (default 0 (choiceMap Sample.boot !! "example.com.") + 1)
         then Sample.aRecord "example.com." "2.2.2.2"
         else Sample.aRecord "example.com." "1.1.1.1"] /\
    choiceMap (newDNSHandler Sample.threeA 0 0 "" true
                 (Sample.query "example.com." TypeA) Sample.boot).2
      !! "example.com."
      = Some (default 0 (choiceMap Sample.boot !! "example.com.") + 1).
Proof.
  assert (Hc : 0 <= default 0 (choiceMap Sample.boot !! "example.com.")
               < 2 ^ 63 - 1) by (vm_compute; split; [discriminate | reflexivity]).
  split; [repeat split; try reflexivity; apply Hc|].
  exact (X7_only_first_two_served Sample.threeA 0 0 ""
           (Sample.query "example.com." TypeA)
           (Sample.question "example.com." TypeA) [] Sample.boot
           (Sample.aRecord "example.com." "1.1.1.1")
           (Sample.aRecord "example.com." "2.2.2.2")
           [Sample.aRecord "example.com." "3.3.3.3"]
           eq_refl eq_refl eq_refl eq_refl eq_refl Hc).
Defined.

Lemma X8_cname_alternation_witness :
  (Opcode (Sample.query "cname.example.com." TypeA) = OpcodeQuery /\
   Question (Sample.query "cname.example.com." TypeA)
     = [Sample.question "cname.example.com." TypeA] /\
   Qtype (Sample.question "cname.example.com." TypeA) = TypeA /\
   HasPrefix (Name (Sample.question "cname.example.com." TypeA)) "cname." = true /\
   @NewRR Ref.lib
     (Name (Sample.question "cname.example.com." TypeA) +:+ " CNAME " +:+
      TrimPrefix (Name (Sample.question "cname.example.com." TypeA)) "cname.")
     = Some (Sample.cnameRecord "cname.example.com." "example.com.") /\
   omap (addressRecord (L := Ref.lib)
           (TrimPrefix (Name (Sample.question "cname.example.com." TypeA)) "cname.")
           "A")
     (if 0 <? Z.of_nat (length (CNAMEA Sample.withCNAME))
      then CNAMEA Sample.withCNAME else A Sample.withCNAME)
     = [Sample.aRecord "example.com." "9.9.9.9"] /\
   0 <= default 0 (choiceMap Sample.boot !! "cname.example.com.") < 2 ^ 63 - 1) /\
  exists reply,
    (newDNSHandler Sample.withCNAME 0 0 "" true
       (Sample.query "cname.example.com." TypeA) Sample.boot).1 = Done tt /\
    written (newDNSHandler Sample.withCNAME 0 0 "" true
               (Sample.query "cname.example.com." TypeA) Sample.boot).2
      = written Sample.boot ++ [reply] /\
    Answer reply
      = [if Z.odd (default 0 (choiceMap Sample.boot !! "cname.example.com.") + 1)
         then Sample.aRecord "example.com." "9.9.9.9"
         else Sample.cnameRecord "cname.example.com." "example.com."] /\
    choiceMap (newDNSHandler Sample.withCNAME 0 0 "" true
                 (Sample.query "cname.example.com." TypeA) Sample.boot).2
      !! "cname.example.com."
      = Some (default 0 (choiceMap Sample.boot !! "cname.example.com.") + 1).
Proof.
  assert (Hc : 0 <= default 0 (choiceMap Sample.boot !! "cname.example.com.")
               < 2 ^ 63 - 1) by (vm_compute; split; [discriminate | reflexivity]).
  split; [repeat split; try reflexivity; apply Hc|].
  exact (X8_cname_alternation Sample.withCNAME 0 0 ""
           (Sample.query "cname.example.com." TypeA)
           (Sample.question "cname.example.com." TypeA) [] Sample.boot
           (Sample.cnameRecord "cname.example.com." "example.com.")
           (Sample.aRecord "example.com." "9.9.9.9") []
           eq_refl eq_refl eq_refl eq_refl eq_refl eq_refl Hc).
Defined.

Lemma X9_cname_query_answers_witness :
  (Opcode (Sample.query "cname.example.com." TypeA) = OpcodeQuery /\
   Question (Sample.query "cname.example.com." TypeA)
     = [Sample.question "cname.example.com." TypeA] /\
   HasPrefix (Name (Sample.question "cname.example.com." TypeA)) "cname." = true /\
   Qtype (Sample.question "cname.example.com." TypeA) = TypeA) /\
  exists reply,
    (newDNSHandler Sample.withCNAME 0 0 "" false
       (Sample.query "cname.example.com." TypeA) Sample.boot).1 = Done tt /\
    written (newDNSHandler Sample.withCNAME 0 0 "" false
               (Sample.query "cname.example.com." TypeA) Sample.boot).2
      = written Sample.boot ++ [reply] /\
    Answer reply =
      cnameRecords (Name (Sample.question "cname.example.com." TypeA)) ++
      omap (addressRecord
              (TrimPrefix (Name (Sample.question "cname.example.com." TypeA)) "cname.")
              "A")
        (if 0 <? Z.of_nat (length (CNAMEA Sample.withCNAME))
         then CNAMEA Sample.withCNAME else A Sample.withCNAME).
Proof.
  split; [repeat split; reflexivity|].
  destruct (X9_cname_query_answers Sample.withCNAME 0 0 ""
              (Sample.query "cname.example.com." TypeA)
              (Sample.question "cname.example.com." TypeA) [] Sample.boot
              eq_refl eq_refl eq_refl)
    as (reply & Hdone & Hwr & HA & _).
  exists reply. split; [exact Hdone|]. split; [exact Hwr|]. exact (HA eq_refl).
Defined.

(** The reply to that query: the CNAME record, then the record of the
    CNAME-targeted address for the stripped name. *)
Example cname_query_reply :
  map Answer
    (written (newDNSHandler Sample.withCNAME 0 0 "" false
                (Sample.query "cname.example.com." TypeA) Sample.boot).2)
  = [[Sample.cnameRecord "cname.example.com." "example.com.";
      Sample.aRecord "example.com." "9.9.9.9"]].
Proof. vm_compute. reflexivity. Qed.


Lemma X11_log_of_direct_A_query_witness :
  (Opcode (Sample.query "example.com." TypeA) = OpcodeQuery /\
   Question (Sample.query "example.com." TypeA)
     = [Sample.question "example.com." TypeA] /\
   Qtype (Sample.question "example.com." TypeA) = TypeA /\
   HasPrefix (Name (Sample.question "example.com." TypeA)) "cname." = false) /\
  exists reply,
    written (newDNSHandler Sample.mixedA 0 0 "" false
               (Sample.query "example.com." TypeA) Sample.boot).2
      = written Sample.boot ++ [reply] /\
    logged (newDNSHandler Sample.mixedA 0 0 "" false
              (Sample.query "example.com." TypeA) Sample.boot).2
      = logged Sample.boot ++
        [LogQuery "A" (Name (Sample.question "example.com." TypeA)) 0] ++
        failedLines (Name (Sample.question "example.com." TypeA)) "A"
          (A Sample.mixedA) ++
        map LogResponding (Answer reply) /\
    (length (Answer reply) +
     length (failedLines (L := Ref.lib)
               (Name (Sample.question "example.com." TypeA)) "A" (A Sample.mixedA)))%nat
      = length (List.filter (@ParseIP Ref.lib) (A Sample.mixedA)).
Proof.
  split; [repeat split; reflexivity|].
  exact (X11_log_of_direct_A_query Sample.mixedA 0 0 ""
           (Sample.query "example.com." TypeA)
           (Sample.question "example.com." TypeA) [] Sample.boot
           eq_refl eq_refl eq_refl eq_refl).
Defined.

Lemma X12_trim_prefix_round_trip_witness :
  HasPrefix "cname.example.com." "cname." = true /\
  "cname." +:+ TrimPrefix "cname.example.com." "cname." = "cname.example.com.".
Proof.
  assert (Hpre : HasPrefix "cname.example.com." "cname." = true) by reflexivity.
  split; [exact Hpre|].
  destruct (X12_trim_prefix_round_trip "cname.example.com." "cname.")
    as (_ & Hback & _).
  exact (Hback Hpre).
Defined.

Lemma X13_alternation_sequence_witness :
  (Opcode (Sample.query "example.com." TypeA) = OpcodeQuery /\
   Question (Sample.query "example.com." TypeA)
     = [Sample.question "example.com." TypeA] /\
   Qtype (Sample.question "example.com." TypeA) = TypeA /\
   HasPrefix (Name (Sample.question "example.com." TypeA)) "cname." = false /\
   A Sample.twoA = ["1.1.1.1"; "2.2.2.2"] /\
   addressRecord (L := Ref.lib) "example.com." "A" "1.1.1.1"
     = Some (Sample.aRecord "example.com." "1.1.1.1") /\
   addressRecord (L := Ref.lib) "example.com." "A" "2.2.2.2"
     = Some (Sample.aRecord "example.com." "2.2.2.2") /\
   choiceMap Sample.boot !! "example.com." = None /\
   Z.of_nat 4 < 2 ^ 63) /\
  exists replies w',
    forRange (replicate 4 (Sample.query "example.com." TypeA))
      (fun r' _ => newDNSHandler Sample.twoA 0 0 "" true r') tt Sample.boot
      = (Done tt, w') /\
    written w' = written Sample.boot ++ replies /\
    map Answer replies
      = map (fun k => [if Z.odd (Z.of_nat k)
                       then Sample.aRecord "example.com." "2.2.2.2"
                       else Sample.aRecord "example.com." "1.1.1.1"]) (seq 1 4) /\
    default 0 (choiceMap w' !! "example.com.") = Z.of_nat 4.
Proof.
  assert (Hfresh : choiceMap Sample.boot !! "example.com." = None)
    by (vm_compute; reflexivity).
  assert (Hn : Z.of_nat 4 < 2 ^ 63) by (vm_compute; reflexivity).
  split; [repeat split; try reflexivity; assumption|].
  exact (X13_alternation_sequence Sample.twoA 0 0 ""
           (Sample.query "example.com." TypeA)
           (Sample.question "example.com." TypeA) [] "1.1.1.1" "2.2.2.2"
           (Sample.aRecord "example.com." "1.1.1.1")
           (Sample.aRecord "example.com." "2.2.2.2") 4 Sample.boot
           eq_refl eq_refl eq_refl eq_refl eq_refl eq_refl eq_refl Hfresh Hn).
Defined.

(** Four alternating queries in a row, evaluated. *)
Example four_alternating_queries :
  map Answer
    (written (forRange (replicate 4 (Sample.query "example.com." TypeA))
                (fun r' _ => newDNSHandler Sample.twoA 0 0 "" true r') tt
                Sample.boot).2)
  = [[Sample.aRecord "example.com." "2.2.2.2"];
     [Sample.aRecord "example.com." "1.1.1.1"];
     [Sample.aRecord "example.com." "2.2.2.2"];
     [Sample.aRecord "example.com." "1.1.1.1"]].
Proof. vm_compute. reflexivity. Qed.
